(** * Mira: agent trade generation and position lifecycle

    A shallow embedding of the agent engine of the Mira prediction-market
    terminal (profile registry, summary and statistics projections, agent
    trade cache, position lifecycle, trade generator, AI response cache,
    engine configuration, category detection), with the properties the
    specification states about it and further properties of the code.

    JavaScript numbers are IEEE 754 binary64 values, modelled by Rocq's
    primitive floats: every arithmetic operation and comparison below is the
    one the engine executes, rounding included.  Counts ([Array.length],
    loop indices) are natural numbers and [Date.now()] readings used by the
    caches are integers (milliseconds). *)

From Stdlib Require Import Floats ZArith List Bool Lia Ascii DecimalString.
From stdpp Require Import gmap strings list.

Set Warnings "-inexact-float".
Local Open Scope string_scope.
Local Open Scope list_scope.

(** ** JavaScript numbers *)

Module JsNumber.

(** [a > b] and [a >= b]; both are false as soon as one side is NaN. *)
Definition gtb (a b : float) : bool := PrimFloat.ltb b a.
Definition geb (a b : float) : bool := PrimFloat.leb b a.

(** Truthiness of a number: [0], [-0] and [NaN] are falsy. *)
Definition truthy (x : float) : bool :=
  negb (PrimFloat.eqb x 0) && PrimFloat.eqb x x.

(** [x || 0] on a number. *)
Definition orZero (x : float) : float := if truthy x then x else 0%float.

(** An optional numeric field, as in [pnl?: number | null]. *)
Inductive OptNumber := Undefined | Null | Num (x : float).

(** [v || 0] on an optional numeric field. *)
Definition optOrZero (v : OptNumber) : float :=
  match v with
  | Num x => orZero x
  | Undefined | Null => 0%float
  end.

(** [v !== null]. *)
Definition notNull (v : OptNumber) : bool :=
  match v with Null => false | _ => true end.

(** An array length as a number (exact below 2^53). *)
Definition ofNat (n : nat) : float := PrimFloat.of_uint63 (Uint63.of_Z (Z.of_nat n)).

End JsNumber.

(** A completion of a call that may throw [new Error(message)]. *)
Inductive Completion (A : Type) :=
| Return (value : A)
| Throw (message : string).
Arguments Return {A} value.
Arguments Throw {A} message.

(** ** dist-server/lib/agents/domain.js *)

Module Domain.

Inductive RiskLevel := LOW | MEDIUM | HIGH.

Record ScoringWeights := {
  volumeWeight : float;
  liquidityWeight : float;
  priceMovementWeight : float;
  newsWeight : float;
  probWeight : float;
}.

(** [maxTrades] is a count: every profile of the registry gives a natural
    number. *)
Record AgentProfile := {
  id : string;
  displayName : string;
  avatar : string;
  minVolume : float;
  minLiquidity : float;
  maxTrades : nat;
  risk : RiskLevel;
  focusCategories : list string;
  weights : ScoringWeights;
}.

Definition GROK_4 : AgentProfile := {|
  id := "GROK_4"; displayName := "GROK 4"; avatar := "🔥";
  minVolume := 30000; minLiquidity := 5000; maxTrades := 5; risk := HIGH;
  focusCategories := ["Crypto"; "Tech"; "Politics"];
  weights := {| volumeWeight := 1.3; liquidityWeight := 1.0;
                priceMovementWeight := 1.4; newsWeight := 0.9; probWeight := 1.0 |} |}.

Definition GPT_5 : AgentProfile := {|
  id := "GPT_5"; displayName := "GPT-5"; avatar := "✨";
  minVolume := 100000; minLiquidity := 20000; maxTrades := 4; risk := MEDIUM;
  focusCategories := ["Tech"; "Finance"; "Crypto"];
  weights := {| volumeWeight := 1.1; liquidityWeight := 1.2;
                priceMovementWeight := 1.0; newsWeight := 1.1; probWeight := 1.1 |} |}.

Definition DEEPSEEK_V3 : AgentProfile := {|
  id := "DEEPSEEK_V3"; displayName := "DEEPSEEK V3"; avatar := "🔮";
  minVolume := 75000; minLiquidity := 15000; maxTrades := 6; risk := MEDIUM;
  focusCategories := ["Crypto"; "Finance"; "Elections"];
  weights := {| volumeWeight := 1.0; liquidityWeight := 1.0;
                priceMovementWeight := 1.1; newsWeight := 1.3; probWeight := 1.0 |} |}.

Definition GEMINI_2_5 : AgentProfile := {|
  id := "GEMINI_2_5"; displayName := "GEMINI 2.5"; avatar := "♊";
  minVolume := 20000; minLiquidity := 3000; maxTrades := 7; risk := HIGH;
  focusCategories := ["Sports"; "Entertainment"; "World"];
  weights := {| volumeWeight := 0.9; liquidityWeight := 0.9;
                priceMovementWeight := 1.3; newsWeight := 1.4; probWeight := 1.0 |} |}.

Definition CLAUDE_4_5 : AgentProfile := {|
  id := "CLAUDE_4_5"; displayName := "CLAUDE 4.5"; avatar := "🧠";
  minVolume := 80000; minLiquidity := 18000; maxTrades := 5; risk := LOW;
  focusCategories := ["Finance"; "Politics"; "Elections"];
  weights := {| volumeWeight := 1.0; liquidityWeight := 1.3;
                priceMovementWeight := 0.9; newsWeight := 1.4; probWeight := 1.2 |} |}.

Definition QWEN_2_5 : AgentProfile := {|
  id := "QWEN_2_5"; displayName := "QWEN 2.5"; avatar := "🤖";
  minVolume := 60000; minLiquidity := 12000; maxTrades := 6; risk := MEDIUM;
  focusCategories := ["Finance"; "Geopolitics"; "World"];
  weights := {| volumeWeight := 1.1; liquidityWeight := 1.0;
                priceMovementWeight := 1.0; newsWeight := 1.2; probWeight := 1.1 |} |}.

(** The object literal [AGENT_PROFILES]: its own properties, in source
    order. *)
Definition AGENT_PROFILES : list (string * AgentProfile) :=
  [ ("GROK_4", GROK_4); ("GPT_5", GPT_5); ("DEEPSEEK_V3", DEEPSEEK_V3);
    ("GEMINI_2_5", GEMINI_2_5); ("CLAUDE_4_5", CLAUDE_4_5); ("QWEN_2_5", QWEN_2_5) ].

(** [Object.keys(AGENT_PROFILES)]. *)
Definition ALL_AGENT_IDS : list string := map fst AGENT_PROFILES.

(** An object literal inherits from [Object.prototype]; these are the
    property names found there.  Each of them holds a function, or for
    [__proto__] the prototype object itself: all truthy values. *)
Definition Object_prototype_keys : list string :=
  [ "constructor"; "__defineGetter__"; "__defineSetter__"; "hasOwnProperty";
    "__lookupGetter__"; "__lookupSetter__"; "isPrototypeOf";
    "propertyIsEnumerable"; "toString"; "valueOf"; "__proto__";
    "toLocaleString" ].

(** What a property read on [AGENT_PROFILES] can yield, [undefined] apart. *)
Inductive PropertyValue :=
| OwnProfile (profile : AgentProfile)
| Inherited (key : string).

Fixpoint ownProperty (o : list (string * AgentProfile)) (key : string)
  : option AgentProfile :=
  match o with
  | [] => None
  | (k, v) :: rest => if String.eqb k key then Some v else ownProperty rest key
  end.

(** [o[key]]: the own property if there is one, else the one of
    [Object.prototype], else [undefined] (here [None]). *)
Definition getProperty (o : list (string * AgentProfile)) (key : string)
  : option PropertyValue :=
  match ownProperty o key with
  | Some p => Some (OwnProfile p)
  | None =>
      if existsb (String.eqb key) Object_prototype_keys
      then Some (Inherited key) else None
  end.

Definition getAgentProfile (agentId : string) : Completion PropertyValue :=
  match getProperty AGENT_PROFILES agentId with
  | None => Throw (String.append "Unknown agent ID: " agentId)
  | Some profile => Return profile
  end.

(** [id in AGENT_PROFILES]: the [in] operator follows the prototype chain
    as well. *)
Definition isValidAgentId (id : string) : bool :=
  match getProperty AGENT_PROFILES id with Some _ => true | None => false end.

(** The type [AgentId] of the TypeScript sources: the union of the six
    literal ids. *)
Inductive AgentId :=
| ID_GROK_4 | ID_GPT_5 | ID_DEEPSEEK_V3 | ID_GEMINI_2_5 | ID_CLAUDE_4_5 | ID_QWEN_2_5.

Definition agentIdString (a : AgentId) : string :=
  match a with
  | ID_GROK_4 => "GROK_4"
  | ID_GPT_5 => "GPT_5"
  | ID_DEEPSEEK_V3 => "DEEPSEEK_V3"
  | ID_GEMINI_2_5 => "GEMINI_2_5"
  | ID_CLAUDE_4_5 => "CLAUDE_4_5"
  | ID_QWEN_2_5 => "QWEN_2_5"
  end.

(** What [getAgentProfile] returns on a well-typed [AgentId]. *)
Definition profileOf (a : AgentId) : AgentProfile :=
  match a with
  | ID_GROK_4 => GROK_4
  | ID_GPT_5 => GPT_5
  | ID_DEEPSEEK_V3 => DEEPSEEK_V3
  | ID_GEMINI_2_5 => GEMINI_2_5
  | ID_CLAUDE_4_5 => CLAUDE_4_5
  | ID_QWEN_2_5 => QWEN_2_5
  end.

(** [AgentTrade], with the fields the summary and the statistics read.
    [status] is the string that the code compares with ['OPEN'] and
    ['CLOSED']; nothing in the code restricts it to these two. *)
Record AgentTrade := {
  status : string;
  pnl : JsNumber.OptNumber;
  investmentUsd : float;
}.

(** [t.status === 'OPEN'] and [t.status === 'CLOSED']. *)
Definition isOpen (t : AgentTrade) : bool := String.eqb (status t) "OPEN".

Definition isClosed (t : AgentTrade) : bool := String.eqb (status t) "CLOSED".

(** The trades that neither filter keeps. *)
Definition isNeither (t : AgentTrade) : bool :=
  negb (isOpen t) && negb (isClosed t).

End Domain.

(** ** dist-server/lib/agents/summary.js *)

Module Summary.
Import Domain.

Record SummaryStats := {
  totalPnl : float;
  openTradesCount : nat;
  closedTradesCount : nat;
  bestAgentByPnl : option string;
}.

(** The local variables of [computeSummaryStats]. *)
Record Locals := {
  var_totalPnl : float;
  var_openTradesCount : nat;
  var_closedTradesCount : nat;
  var_bestAgentByPnl : option string;
  var_bestPnl : float;
}.

Definition initial : Locals := {|
  var_totalPnl := 0;
  var_openTradesCount := 0;
  var_closedTradesCount := 0;
  var_bestAgentByPnl := None;
  var_bestPnl := neg_infinity;
|}.

(** [closedTrades.reduce((sum, t) => sum + (t.pnl || 0), 0)]. *)
Definition sumPnl (closedTrades : list AgentTrade) : float :=
  fold_left (fun sum t => (sum + JsNumber.optOrZero (pnl t))%float) closedTrades 0%float.

(** One iteration of the loop over [Object.entries(tradesByAgent)]. *)
Definition visitAgent (vars : Locals) (entry : string * list AgentTrade) : Locals :=
  let '(agentId, trades) := entry in
  let closedTrades := List.filter isClosed trades in
  let agentPnl := sumPnl closedTrades in
  let better := JsNumber.gtb agentPnl (var_bestPnl vars) in
  {| var_totalPnl := (var_totalPnl vars + agentPnl)%float;
     var_openTradesCount := var_openTradesCount vars + length (List.filter isOpen trades);
     var_closedTradesCount := var_closedTradesCount vars + length closedTrades;
     var_bestAgentByPnl := if better then Some agentId else var_bestAgentByPnl vars;
     var_bestPnl := if better then agentPnl else var_bestPnl vars |}.

(** [tradesByAgent] is given by its entries, in the order in which
    [Object.entries] enumerates them. *)
Definition computeSummaryStats (tradesByAgent : list (string * list AgentTrade))
  : SummaryStats :=
  let vars := fold_left visitAgent tradesByAgent initial in
  {| totalPnl := var_totalPnl vars;
     openTradesCount := var_openTradesCount vars;
     closedTradesCount := var_closedTradesCount vars;
     bestAgentByPnl :=
       if JsNumber.gtb (var_bestPnl vars) neg_infinity
       then var_bestAgentByPnl vars else None |}.

End Summary.

(** ** Agent statistics calculation ([calculateAgentStats], in
    src/lib/agents/config.ts) *)

Module Stats.
Import Domain.

Record AgentStats := {
  id : string;
  name : string;
  emoji : string;
  color : string;
  cash : float;
  total : float;
  pnl : float;
  winRate : float;
  wins : nat;
  losses : nat;
  exposure : float;
  maxExposure : float;
  calls : nat;
  minConf : float;
}.

Definition AGENT_COLORS : list (string * string) :=
  [ ("deepseek", "#8b91a8"); ("claude", "#9d8b6b"); ("qwen", "#6b9e7d");
    ("gemini", "#9ca3af"); ("grok", "#ba6b6b"); ("gpt5", "#8b7aa8") ].

(** [FRONTEND_ID_MAP[agentId]]: every [AgentId] has an entry, a non-empty
    string, so the fallback [|| agentId.toLowerCase()] is never taken. *)
Definition FRONTEND_ID_MAP (agentId : AgentId) : string :=
  match agentId with
  | ID_DEEPSEEK_V3 => "deepseek"
  | ID_CLAUDE_4_5 => "claude"
  | ID_QWEN_2_5 => "qwen"
  | ID_GEMINI_2_5 => "gemini"
  | ID_GROK_4 => "grok"
  | ID_GPT_5 => "gpt5"
  end.

(** [AGENT_COLORS[frontendId] || '#64748b']. *)
Fixpoint colorOf (table : list (string * string)) (frontendId : string) : string :=
  match table with
  | [] => "#64748b"
  | (k, c) :: rest => if String.eqb k frontendId then c else colorOf rest frontendId
  end.

(** [Math.max(a, b)]: NaN if either argument is, and [+0] above [-0]. *)
Definition Math_max (a b : float) : float :=
  if negb (PrimFloat.eqb a a) || negb (PrimFloat.eqb b b) then nan
  else if PrimFloat.ltb a b then b
  else if PrimFloat.ltb b a then a
  else match PrimFloat.classify a with NZero => b | _ => a end.

(** [(t.pnl || 0) > 0] and [(t.pnl || 0) <= 0]. *)
Definition isWin (t : AgentTrade) : bool :=
  JsNumber.gtb (JsNumber.optOrZero (Domain.pnl t)) 0.
Definition isLoss (t : AgentTrade) : bool :=
  PrimFloat.leb (JsNumber.optOrZero (Domain.pnl t)) 0.

(** [wins + losses > 0 ? (wins / (wins + losses)) * 100 : 0]. *)
Definition winRateOf (wins losses : nat) : float :=
  if (0 <? wins + losses)%nat
  then (JsNumber.ofNat wins / JsNumber.ofNat (wins + losses) * 100)%float
  else 0%float.



Section WithStartingCapital.

(** The constant [STARTING_CAPITAL_USD] of [./portfolio.js]. *)
Variable STARTING_CAPITAL_USD : float.

Definition calculateAgentStats (agentId : AgentId) (trades : list AgentTrade)
  : AgentStats :=
  let agent := profileOf agentId in
  let frontendId := FRONTEND_ID_MAP agentId in
  let openTrades := List.filter isOpen trades in
  let closedTrades :=
    List.filter (fun t => isClosed t && JsNumber.notNull (Domain.pnl t)) trades in
  let realizedPnl :=
    fold_left (fun sum t => (sum + JsNumber.optOrZero (Domain.pnl t))%float)
      closedTrades 0%float in
  let exposure :=
    fold_left (fun sum t => (sum + JsNumber.orZero (investmentUsd t))%float)
      openTrades 0%float in
  let unrealizedPnl := 0%float in
  let totalCapital := (STARTING_CAPITAL_USD + realizedPnl + unrealizedPnl)%float in
  let cash := (totalCapital - exposure)%float in
  let wins := length (List.filter isWin closedTrades) in
  let losses := length (List.filter isLoss closedTrades) in
  let winRate := winRateOf wins losses in
  let totalPnl := (realizedPnl + unrealizedPnl)%float in
  let maxExposurePct :=
    if JsNumber.gtb STARTING_CAPITAL_USD 0
    then (exposure / STARTING_CAPITAL_USD * 100)%float else 0%float in
  let calls := length trades in
  let minConf := 0.60%float in
  {| id := frontendId;
     name := displayName agent;
     emoji := avatar agent;
     color := colorOf AGENT_COLORS frontendId;
     cash := Math_max 0 cash;
     total := Math_max 0 totalCapital;
     pnl := totalPnl;
     winRate := winRate;
     wins := wins;
     losses := losses;
     exposure := exposure;
     maxExposure := maxExposurePct;
     calls := calls;
     minConf := minConf |}.

End WithStartingCapital.

End Stats.

(** ** Agent trade cache (the module [./cache] of the generator, in
    README.md) *)

Module Cache.

Section AgentCache.

(** The cached array of trades; the cache keeps and hands back the very
    array it was given. *)
Context {Trades : Type}.

Record CacheEntry := {
  trades : Trades;
  generatedAt : Z;
  marketIds : list string;
}.

Definition CACHE_TTL_MS : Z := 30 * 1000.

(** The comparison loop of [getCachedAgentTrades]: is there an index [i]
    below [entry.marketIds.length] with
    [entry.marketIds[i] !== currentMarketIds[i]]?  Reading past the end of
    [currentMarketIds] gives [undefined], which differs from every id. *)
Fixpoint marketIdsDiffer (recorded current : list string) : bool :=
  match recorded, current with
  | [], _ => false
  | _ :: _, [] => true
  | r :: recorded', c :: current' =>
      if negb (String.eqb r c) then true else marketIdsDiffer recorded' current'
  end.

(** The module-level [agentCache] is threaded through; [now] is the
    reading of [Date.now()]. *)
Definition getCachedAgentTrades (agentId : string) (currentMarketIds : list string)
    (now : Z) (agentCache : gmap string CacheEntry)
  : option Trades * gmap string CacheEntry :=
  match agentCache !! agentId with
  | None => (None, agentCache)
  | Some entry =>
      let age := (now - generatedAt entry)%Z in
      if (age >=? CACHE_TTL_MS)%Z then (None, delete agentId agentCache)
      else if negb (length (marketIds entry) =? length currentMarketIds)%nat
      then (None, delete agentId agentCache)
      else if marketIdsDiffer (marketIds entry) currentMarketIds
      then (None, delete agentId agentCache)
      else (Some (trades entry), agentCache)
  end.

Definition setCachedAgentTrades (agentId : string) (trades : Trades)
    (marketIds : list string) (now : Z) (agentCache : gmap string CacheEntry)
  : gmap string CacheEntry :=
  <[agentId := {| trades := trades; generatedAt := now; marketIds := marketIds |}]>
    agentCache.

Definition getCachedTradesQuick (agentId : string) (now : Z)
    (agentCache : gmap string CacheEntry)
  : option Trades * gmap string CacheEntry :=
  match agentCache !! agentId with
  | None => (None, agentCache)
  | Some entry =>
      let age := (now - generatedAt entry)%Z in
      if (age >=? CACHE_TTL_MS)%Z then (None, delete agentId agentCache)
      else (Some (trades entry), agentCache)
  end.

Definition clearAgentCache (agentCache : gmap string CacheEntry)
  : gmap string CacheEntry := ∅.

End AgentCache.

Arguments CacheEntry Trades : clear implicits.

End Cache.

(** ** Trade lifecycle management (in README.md) *)

Module Lifecycle.

Inductive Side := YES | NO.

(** [openedAt] holds [new Date(position.openedAt).getTime()], the opening
    time in milliseconds (NaN for an invalid date). *)
Record Position := {
  side : Side;
  entryProbability : float;
  sizeUsd : float;
  openedAt : float;
  unrealizedPnl : float;
}.

Record Market := {
  currentProbability : float;
}.

(** [openPositions] is an object keyed by market id, given by its entries
    in enumeration order. *)
Record Portfolio := {
  openPositions : list (string * Position);
  realizedPnlUsd : float;
  currentCapitalUsd : float;
}.

Record ClosedPosition := {
  position : Position;
  realizedPnl : float;
}.

Definition TAKE_PROFIT_YES : float := 0.8.
Definition TAKE_PROFIT_NO : float := 0.2.
Definition STOP_LOSS_YES : float := 0.3.
Definition STOP_LOSS_NO : float := 0.7.
Definition MAX_HOLDING_DAYS : float := 30.
Definition MIN_SCORE_THRESHOLD : float := 20.

Definition isYES (s : Side) : bool := match s with YES => true | NO => false end.
Definition isNO (s : Side) : bool := match s with NO => true | YES => false end.

Definition daysOpen (position : Position) (now : float) : float :=
  ((now - openedAt position) / (1000 * 60 * 60 * 24))%float.

(** [score !== undefined && score < MIN_SCORE_THRESHOLD]. *)
Definition scoreDecayed (score : option float) : bool :=
  match score with
  | Some s => PrimFloat.ltb s MIN_SCORE_THRESHOLD
  | None => false
  end.

(** [now] is the reading of [Date.now()]. *)
Definition shouldClosePosition (position : Position) (market : Market)
    (score : option float) (now : float) : bool :=
  let currentProb := currentProbability market in
  if isYES (side position) && JsNumber.geb currentProb TAKE_PROFIT_YES then true
  else if isNO (side position) && PrimFloat.leb currentProb TAKE_PROFIT_NO then true
  else if isYES (side position) && PrimFloat.leb currentProb STOP_LOSS_YES then true
  else if isNO (side position) && JsNumber.geb currentProb STOP_LOSS_NO then true
  else if JsNumber.geb (daysOpen position now) MAX_HOLDING_DAYS then true
  else if scoreDecayed score then true
  else false.

Definition calculateRealizedPnl (position : Position) (exitProbability : float)
  : float :=
  let entryProb := entryProbability position in
  let sizeUsd := sizeUsd position in
  match side position with
  | YES => ((exitProbability - entryProb) * sizeUsd)%float
  | NO => ((entryProb - exitProbability) * sizeUsd)%float
  end.

Definition shouldFlipPosition (position : Position) (market : Market)
    (agent : Domain.AgentProfile) (newConfidence : float) : bool :=
  let currentProb := currentProbability market in
  let entryProb := entryProbability position in
  let isLosing :=
    match side position with
    | YES => PrimFloat.ltb currentProb entryProb
    | NO => JsNumber.gtb currentProb entryProb
    end in
  if negb isLosing then false
  else if PrimFloat.ltb newConfidence 0.7 then false
  else
    let probChange := PrimFloat.abs (currentProb - entryProb) in
    if PrimFloat.ltb probChange 0.1 then false
    else true.

(** [delete o[key]]. *)
Definition deleteProperty {A} (key : string) (o : list (string * A))
  : list (string * A) :=
  List.filter (fun e => negb (String.eqb (fst e) key)) o.

(** [o[key]] on an object used as a dictionary of positions. *)
Fixpoint property {A} (o : list (string * A)) (key : string) : option A :=
  match o with
  | [] => None
  | (k, v) :: rest => if String.eqb k key then Some v else property rest key
  end.

(** [scoresMap?.get(marketId)]. *)
Definition optionalGet (scoresMap : option (gmap string float)) (marketId : string)
  : option float :=
  match scoresMap with
  | Some scores => scores !! marketId
  | None => None
  end.

(** The body of the loop of [processPositionLifecycle], on one entry of the
    snapshot taken by [Object.entries] when the loop starts.  [now marketId]
    is the reading of [Date.now()] while that position is examined. *)
Definition visitPosition (marketsMap : gmap string Market)
    (scoresMap : option (gmap string float)) (now : string -> float)
    (state : Portfolio * list ClosedPosition) (entry : string * Position)
  : Portfolio * list ClosedPosition :=
  let '(portfolio, closedPositions) := state in
  let '(marketId, position) := entry in
  match marketsMap !! marketId with
  | None =>
      let realizedPnl := unrealizedPnl position in
      ({| openPositions := deleteProperty marketId (openPositions portfolio);
          realizedPnlUsd := realizedPnlUsd portfolio;
          currentCapitalUsd := currentCapitalUsd portfolio |},
       closedPositions ++ [ {| position := position; realizedPnl := realizedPnl |} ])
  | Some market =>
      let score := optionalGet scoresMap marketId in
      if shouldClosePosition position market score (now marketId) then
        let realizedPnl := calculateRealizedPnl position (currentProbability market) in
        ({| openPositions := deleteProperty marketId (openPositions portfolio);
            realizedPnlUsd := (realizedPnlUsd portfolio + realizedPnl)%float;
            currentCapitalUsd := (currentCapitalUsd portfolio + realizedPnl)%float |},
         closedPositions ++ [ {| position := position; realizedPnl := realizedPnl |} ])
      else (portfolio, closedPositions)
  end.

(** Returns the portfolio as the loop leaves it, and the array it returns. *)
Definition processPositionLifecycle (portfolio : Portfolio)
    (marketsMap : gmap string Market) (scoresMap : option (gmap string float))
    (now : string -> float) : Portfolio * list ClosedPosition :=
  fold_left (visitPosition marketsMap scoresMap now)
    (openPositions portfolio) (portfolio, []).

(** To state what the batch does to each entry: whether the loop closes
    it, the record pushed when it does, and whether the entry is closed by an
    exit rule on a market that is present (the case in which the running
    totals are updated). *)
Section Batch.

Variable marketsMap : gmap string Market.
Variable scoresMap : option (gmap string float).
Variable now : string -> float.

Definition closesEntry (entry : string * Position) : bool :=
  match marketsMap !! fst entry with
  | None => true
  | Some market =>
      shouldClosePosition (snd entry) market (optionalGet scoresMap (fst entry))
        (now (fst entry))
  end.

Definition closedRecord (entry : string * Position) : ClosedPosition :=
  match marketsMap !! fst entry with
  | None => {| position := snd entry; realizedPnl := unrealizedPnl (snd entry) |}
  | Some market =>
      {| position := snd entry;
         realizedPnl := calculateRealizedPnl (snd entry) (currentProbability market) |}
  end.

Definition closedByRule (entry : string * Position) : bool :=
  match marketsMap !! fst entry with
  | None => false
  | Some _ => closesEntry entry
  end.

(** Has the loop, run over the entries [es], deleted the key of [e]? *)
Definition deletedBy (es : list (string * Position)) (e : string * Position) : bool :=
  existsb (fun e' => closesEntry e' && String.eqb (fst e') (fst e)) es.

End Batch.

(** An object has one property per key. *)
Definition uniqueKeys (portfolio : Portfolio) : Prop :=
  List.NoDup (map fst (openPositions portfolio)).

End Lifecycle.

(** ** Agent trade generator ([generateAgentTrades], in
    src/lib/agents/config.ts) *)

Module Generator.
Import Domain.

Section Pipeline.

(** The market and news types, and the functions the generator imports
    from [./scoring] and [./engine].  [Oracle] is whatever the decision
    oracle and its response cache read and write between two calls. *)
Variables Market NewsArticle ScoredMarket NewsRelevance Oracle : Type.

(** [m.id]. *)
Variable marketId : Market -> string.

(** [ids.sort()]. *)
Variable sortIds : list string -> list string.

Variable filterCandidateMarkets : AgentProfile -> list Market -> list Market.

Variable scoreMarketForAgent :
  Market -> list NewsArticle -> AgentProfile -> Z -> ScoredMarket.

(** [scoredMarkets.sort((a, b) => b.score - a.score)]. *)
Variable sortByScore : list ScoredMarket -> list ScoredMarket.

Variable computeNewsRelevance : ScoredMarket -> list NewsArticle -> NewsRelevance.

(** [await generateTradeForMarket(agent, scored, newsRelevance, newsArticles, i, nowMs)]:
    a trade, [null], or an exception. *)
Variable generateTradeForMarket :
  AgentProfile -> ScoredMarket -> NewsRelevance -> list NewsArticle -> nat -> Z ->
  Oracle -> Completion (option AgentTrade) * Oracle.

(** What the loop leaves behind: the array [trades], the console log (one
    entry per market processed, with whether a trade was generated for it),
    and the oracle. *)
Record Run := {
  trades : list AgentTrade;
  processed : list (ScoredMarket * bool);
  oracle : Oracle;
}.

(** The loop over [topMarkets], from index [i] on. *)
Fixpoint tradeLoop (agent : AgentProfile) (newsArticles : list NewsArticle)
    (nowMs : Z) (topMarkets : list ScoredMarket) (i : nat) (run : Run) : Run :=
  match topMarkets with
  | [] => run
  | scored :: rest =>
      let newsRelevance := computeNewsRelevance scored newsArticles in
      let '(outcome, oracle') :=
        generateTradeForMarket agent scored newsRelevance newsArticles i nowMs
          (oracle run) in
      let run' :=
        match outcome with
        | Return (Some trade) =>
            {| trades := trades run ++ [trade];
               processed := processed run ++ [(scored, true)];
               oracle := oracle' |}
        | Return None | Throw _ =>
            {| trades := trades run;
               processed := processed run ++ [(scored, false)];
               oracle := oracle' |}
        end in
      if (maxTrades agent <=? length (trades run'))%nat then run'
      else tradeLoop agent newsArticles nowMs rest (S i) run'
  end.

(** Scoring, ranking, the slice and the loop (the path taken on a cache
    miss once candidates are known). *)
Definition generateFromCandidates (agent : AgentProfile)
    (candidates : list Market) (newsArticles : list NewsArticle)
    (now nowMs : Z) (oracle0 : Oracle) : Run :=
  let scoredMarkets :=
    sortByScore
      (map (fun market => scoreMarketForAgent market newsArticles agent now)
         candidates) in
  let topMarkets := firstn (maxTrades agent * 2) scoredMarkets in
  tradeLoop agent newsArticles nowMs topMarkets 0
    {| trades := []; processed := []; oracle := oracle0 |}.

(** [markets] and [newsArticles] are what the two fetches resolved to;
    [tGet] and [tSet] are the readings of [Date.now()] inside the two cache
    calls. *)
Definition generateAgentTrades (agentId : AgentId) (markets : list Market)
    (newsArticles : list NewsArticle) (tGet now nowMs tSet : Z)
    (agentCache : gmap string (Cache.CacheEntry (list AgentTrade)))
    (oracle0 : Oracle)
  : list AgentTrade * gmap string (Cache.CacheEntry (list AgentTrade)) * Oracle :=
  let agent := profileOf agentId in
  let currentMarketIds := sortIds (map marketId markets) in
  match Cache.getCachedAgentTrades (agentIdString agentId) currentMarketIds tGet
          agentCache with
  | (Some cached, agentCache') => (cached, agentCache', oracle0)
  | (None, agentCache') =>
      match filterCandidateMarkets agent markets with
      | [] => ([], agentCache', oracle0)
      | candidates =>
          let run :=
            generateFromCandidates agent candidates newsArticles now nowMs oracle0 in
          (trades run,
           Cache.setCachedAgentTrades (agentIdString agentId) (trades run)
             currentMarketIds tSet agentCache',
           oracle run)
      end
  end.

End Pipeline.

Arguments Run : clear implicits.
Arguments trades {ScoredMarket Oracle} _.
Arguments processed {ScoredMarket Oracle} _.
Arguments oracle {ScoredMarket Oracle} _.
Arguments tradeLoop {NewsArticle ScoredMarket NewsRelevance Oracle}.
Arguments generateFromCandidates {Market NewsArticle ScoredMarket NewsRelevance Oracle}.
Arguments generateAgentTrades {Market NewsArticle ScoredMarket NewsRelevance Oracle}.

(** The number of trades generated according to a log. *)
Definition countGenerated {A} (log : list (A * bool)) : nat :=
  length (List.filter snd log).

(** No cached list is longer than its agent's quota. *)
Definition withinQuota
    (agentCache : gmap string (Cache.CacheEntry (list AgentTrade))) : Prop :=
  forall (a : AgentId) (entry : Cache.CacheEntry (list AgentTrade)),
    agentCache !! agentIdString a = Some entry ->
    length (Cache.trades entry) <= maxTrades (profileOf a).

End Generator.

(** ** AI response cache (dist-server/lib/agents/ai-cache.js) *)

Module AICache.

Section DecisionCache.

(** The cached decision, whatever the oracle returned. *)
Context {Decision : Type}.

Record CacheEntry := {
  decision : Decision;
  cachedAt : Z;
}.

Definition AI_CACHE_TTL : Z := 30 * 1000.

(** The template literal [`${agentId}:${marketId}`]. *)
Definition cacheKey (agentId marketId : string) : string :=
  String.append agentId (String.append ":" marketId).

(** The module-level [aiCache] is threaded through; [now] is the reading
    of [Date.now()]. *)
Definition getCachedAIDecision (agentId marketId : string) (now : Z)
    (aiCache : gmap string CacheEntry) : option Decision * gmap string CacheEntry :=
  let key := cacheKey agentId marketId in
  match aiCache !! key with
  | None => (None, aiCache)
  | Some entry =>
      let age := (now - cachedAt entry)%Z in
      if (age >=? AI_CACHE_TTL)%Z then (None, delete key aiCache)
      else (Some (decision entry), aiCache)
  end.

Definition setCachedAIDecision (agentId marketId : string) (decision : Decision)
    (now : Z) (aiCache : gmap string CacheEntry) : gmap string CacheEntry :=
  let key := cacheKey agentId marketId in
  <[key := {| decision := decision; cachedAt := now |}]> aiCache.

Definition clearAICache (aiCache : gmap string CacheEntry) : gmap string CacheEntry := ∅.

End DecisionCache.

Arguments CacheEntry Decision : clear implicits.

(** Does the character [c] occur in [s]? *)
Fixpoint occurs (c : Ascii.ascii) (s : string) : bool :=
  match s with
  | EmptyString => false
  | String c' s' => Ascii.eqb c c' || occurs c s'
  end.

End AICache.

(** ** Engine configuration (src/lib/agents/config.ts) *)

Module EngineConfig.

Inductive EngineMode := LIVE | SIMULATION | DEBUG.

Record TradingEngineConfig := {
  mode : EngineMode;
  debug : bool;
  enableLifecycle : bool;
  enableAdaptive : bool;
  enableWebSearch : bool;
}.

(** [process.env.NAME === 'literal']: the variable is set, to exactly that
    string. *)
Definition envIs (env : string -> option string) (name literal : string) : bool :=
  match env name with
  | Some value => String.eqb value literal
  | None => false
  end.

(** [env] is [process.env] as it is when the module is loaded. *)
Definition DEFAULT_CONFIG (env : string -> option string) : TradingEngineConfig := {|
  mode := if envIs env "PREDICTION_ENGINE_MODE" "LIVE" then LIVE else SIMULATION;
  debug := envIs env "PREDICTION_ENGINE_DEBUG" "true";
  enableLifecycle := true;
  enableAdaptive := true;
  enableWebSearch := true;
|}.

Definition getEngineConfig (env : string -> option string) : TradingEngineConfig :=
  DEFAULT_CONFIG env.

Definition isLifecycleEnabled (env : string -> option string) : bool :=
  enableLifecycle (getEngineConfig env).

Definition isAdaptiveEnabled (env : string -> option string) : bool :=
  enableAdaptive (getEngineConfig env).

Definition isWebSearchEnabled (env : string -> option string) : bool :=
  enableWebSearch (getEngineConfig env).

Definition isDebugMode (env : string -> option string) : bool :=
  debug (getEngineConfig env).

End EngineConfig.

(** ** Agent summary sentence ([buildAgentSummary], in
    dist-server/lib/agents/summary.js) *)

Module SummaryText.
Import Domain.

(** [String(n)] for an array length. *)
Definition numberString (n : nat) : string :=
  NilEmpty.string_of_uint (Nat.to_uint n).

(** [parts.join(sep)]. *)
Fixpoint join (sep : string) (parts : list string) : string :=
  match parts with
  | [] => ""
  | [part] => part
  | part :: rest => String.append part (String.append sep (join sep rest))
  end.

(** [n > 1 ? 's' : '']. *)
Definition plural (n : nat) : string := if (1 <? n)%nat then "s" else "".

Section WithNumberFormat.

(** [x.toFixed(2)]. *)
Variable toFixed2 : float -> string.

Definition buildAgentSummary (trades : list AgentTrade) (agent : AgentProfile)
  : string :=
  if (length trades =? 0)%nat
  then String.append (displayName agent) " has no active trades."
  else
    let openTrades := List.filter isOpen trades in
    let closedTrades := List.filter isClosed trades in
    let totalPnl := Summary.sumPnl closedTrades in
    let parts := [] in
    let parts :=
      if (0 <? length openTrades)%nat
      then parts ++ [String.append (numberString (length openTrades))
                       (String.append " open position" (plural (length openTrades)))]
      else parts in
    let parts :=
      if (0 <? length closedTrades)%nat
      then
        let parts :=
          parts ++ [String.append (numberString (length closedTrades))
                      (String.append " closed trade" (plural (length closedTrades)))] in
        if negb (PrimFloat.eqb totalPnl 0)
        then
          let pnlSign := if JsNumber.gtb totalPnl 0 then "+" else "" in
          parts ++ [String.append pnlSign
                      (String.append "$"
                         (String.append (toFixed2 totalPnl) " realized PnL"))]
        else parts
      else parts in
    if (length parts =? 0)%nat
    then String.append (displayName agent)
           (String.append " has "
              (String.append (numberString (length trades))
                 (String.append " trade"
                    (String.append (plural (length trades)) "."))))
    else String.append (displayName agent)
           (String.append " has " (String.append (join ", " parts) ".")).

End WithNumberFormat.

End SummaryText.

(** ** Category mapping utility *)

Module Category.

(** [s.includes(sub)]. *)
Fixpoint includes (s sub : string) : bool :=
  if String.prefix sub s then true
  else match s with
       | EmptyString => false
       | String _ s' => includes s' sub
       end.

(** The value of a key of [categoryMap]: a slug or [null]. *)
Definition categoryMap : list (string * option string) :=
  [ ("Politics", Some "politics");
    ("Elections", Some "elections");
    ("Sports", Some "sports");
    ("Crypto", Some "crypto");
    ("Finance", Some "finance");
    ("Tech", Some "tech");
    ("Geopolitics", Some "geopolitics");
    ("Earnings", Some "earnings");
    ("World", None);
    ("Breaking", None);
    ("Trending", None);
    ("New", None) ].

Fixpoint ownEntry (o : list (string * option string)) (key : string)
  : option (option string) :=
  match o with
  | [] => None
  | (k, v) :: rest => if String.eqb k key then Some v else ownEntry rest key
  end.

(** What [mapCategoryToPolymarket] returns: [null], a slug, or a member
    that the object literal inherits from [Object.prototype]. *)
Inductive MapResult :=
| NoSlug
| Slug (slug : string)
| InheritedMember (key : string).

(** [categoryMap[category] || null]: the slugs are non-empty strings and
    the inherited members are truthy. *)
Definition mapCategoryToPolymarket (category : string) : MapResult :=
  match ownEntry categoryMap category with
  | Some (Some slug) => Slug slug
  | Some None => NoSlug
  | None =>
      if existsb (String.eqb category) Domain.Object_prototype_keys
      then InheritedMember category else NoSlug
  end.

(** The fields of a market that the detection reads: strings that may be
    missing, and tags that may be missing or [null]. *)
Record MarketFields := {
  category : option string;
  topic : option string;
  subcategory : option string;
  tags : option (list (option string));
  question : option string;
  title : option string;
  name : option string;
  description : option string;
  summary : option string;
}.

(** [a || b] on a string that may be missing: the empty string is falsy. *)
Definition orElse (a : option string) (b : string) : string :=
  match a with
  | Some s => if String.eqb s "" then b else s
  | None => b
  end.

Definition earningsKeywords : list string :=
  [ "earnings"; "quarterly"; "q1"; "q2"; "q3"; "q4"; "revenue"; "eps";
    "earnings per share"; "earnings report"; "quarterly earnings";
    "earnings call"; "earnings announcement" ].

Definition companyNames : list string :=
  [ "apple"; "microsoft"; "google"; "amazon"; "meta"; "tesla"; "nvidia";
    "netflix"; "disney"; "nike"; "coca-cola"; "pepsi"; "walmart"; "target";
    "mcdonald"; "starbucks"; "boeing"; "jpmorgan"; "bank of america";
    "goldman sachs"; "morgan stanley" ].

Definition earningsFalsePositives : list string :=
  [ "top grossing"; "grossing movie"; "box office"; "movie revenue";
    "film revenue" ].

Definition entertainmentKeywords : list string :=
  [ "movie"; "film"; "cinema"; "box office"; "top grossing"; "grossing movie";
    "entertainment"; "celebrity"; "actor"; "actress"; "director"; "oscar";
    "emmy"; "grammy"; "premiere"; "release date"; "trailer"; "sequel";
    "franchise"; "studio"; "hollywood"; "netflix"; "disney+"; "hbo";
    "streaming"; "tv show"; "series"; "episode" ].

Definition strongGeopoliticsKeywords : list string :=
  [ "geopolitics"; "geopolitical"; "ukraine"; "russia"; "china"; "taiwan";
    "israel"; "palestine"; "iran"; "nato"; "sanctions"; "embargo"; "diplomacy";
    "treaty"; "alliance"; "middle east"; "gaza"; "lebanon"; "syria"; "putin";
    "zelenskyy"; "netanyahu"; "xi jinping"; "trump"; "biden"; "president";
    "prime minister"; "supreme leader" ].

Definition weakGeopoliticsKeywords : list string :=
  [ "war"; "conflict"; "military"; "invasion"; "attack"; "strike"; "ceasefire";
    "peace deal" ].

Definition falsePositiveKeywords : list string :=
  [ "top grossing"; "movie"; "film"; "box office"; "entertainment"; "celebrity";
    "actor"; "actress"; "cinema"; "hollywood"; "oscar"; "premiere"; "trailer";
    "sequel"; "release date"; "director"; "studio" ].

Section WithLowerCase.

(** [s.toLowerCase()]. *)
Variable toLowerCase : string -> string.

(** The four lower-cased texts the detection works on. *)
Definition categoryText (market : MarketFields) : string :=
  toLowerCase
    (orElse (category market) (orElse (topic market) (orElse (subcategory market) ""))).

Definition tagTexts (market : MarketFields) : list string :=
  List.filter (fun t => negb (String.eqb t ""))
    (map (fun t => toLowerCase (orElse t ""))
       (match tags market with Some ts => ts | None => [] end)).

Definition questionText (market : MarketFields) : string :=
  toLowerCase
    (orElse (question market) (orElse (title market) (orElse (name market) ""))).

Definition descriptionText (market : MarketFields) : string :=
  toLowerCase (orElse (description market) (orElse (summary market) "")).

Definition isElections (category : string) (tags : list string)
    (question description : string) : bool :=
  String.eqb category "elections" || includes category "election"
  || existsb (fun t =>
        (includes t "election" || includes t "vote" || includes t "ballot"
         || includes t "presidential" || includes t "congressional"
         || includes t "senate" || includes t "house")
        && negb (includes t "politics")) tags
  || (includes question "election" || includes question "vote"
      || includes question "ballot" || includes question "presidential election"
      || includes question "congressional election"
      || includes question "senate election" || includes question "house election")
  || includes description "election" || includes description "vote"
  || includes description "ballot".

Definition isPolitics (category : string) (tags : list string) (question : string)
  : bool :=
  includes category "politics"
  || existsb (fun t => includes t "politics" || includes t "trump" || includes t "biden")
       tags
  || includes question "president" || includes question "trump"
  || includes question "biden" || includes question "congress"
  || includes question "senate" || includes question "house"
  || includes question "government".

Definition isSports (category : string) (tags : list string) (question : string)
  : bool :=
  includes category "sports"
  || existsb (fun t => includes t "sports" || includes t "football"
                       || includes t "basketball" || includes t "soccer"
                       || includes t "nfl" || includes t "nba") tags
  || includes question "super bowl" || includes question "nfl"
  || includes question "nba" || includes question "football"
  || includes question "basketball" || includes question "soccer"
  || includes question "baseball" || includes question "hockey"
  || includes question "tennis" || includes question "championship"
  || includes question "playoff" || includes question "world cup"
  || includes question "olympics" || includes question "ncaa"
  || includes question "ufc".

Definition isCrypto (category : string) (tags : list string) (question : string)
  : bool :=
  includes category "crypto" || includes category "cryptocurrency"
  || existsb (fun t => includes t "crypto" || includes t "bitcoin"
                       || includes t "ethereum" || includes t "btc"
                       || includes t "eth" || includes t "solana") tags
  || includes question "bitcoin" || includes question "ethereum"
  || includes question "crypto" || includes question "btc"
  || includes question "eth" || includes question "solana"
  || includes question "blockchain" || includes question "defi"
  || includes question "nft".

Definition isEarningsFalsePositive (question description : string) : bool :=
  existsb (fun k => includes question k || includes description k)
    earningsFalsePositives.

Definition isEarnings (category : string) (tags : list string)
    (question description : string) : bool :=
  negb (isEarningsFalsePositive question description)
  && (includes category "earnings"
      || existsb (fun t => existsb (fun k => includes t k) earningsKeywords) tags
      || includes question "earnings"
      || (includes question "quarterly" && negb (includes question "movie")
          && negb (includes question "film"))
      || (includes question "revenue" && negb (includes question "movie")
          && negb (includes question "film") && negb (includes question "box office"))
      || includes question "eps"
      || includes question "earnings per share" || includes question "earnings report"
      || includes question "earnings call" || includes question "earnings announcement"
      || (existsb (fun company => includes question company) companyNames
          && (includes question "earnings" || includes question "revenue"
              || includes question "quarterly" || includes question "profit"))
      || includes description "earnings"
      || (includes description "quarterly" && negb (includes description "movie"))
      || (includes description "revenue" && negb (includes description "movie")
          && negb (includes description "box office"))
      || includes description "eps"
      || includes description "earnings report" || includes description "earnings call").

Definition isFinance (category : string) (tags : list string) (question : string)
  : bool :=
  includes category "finance" || includes category "stocks"
  || existsb (fun t => includes t "finance" || includes t "stock"
                       || includes t "trading") tags
  || includes question "stock" || includes question "dow"
  || includes question "s&p" || includes question "nasdaq"
  || includes question "fed" || includes question "interest rate".

Definition isTech (category : string) (tags : list string) (question : string)
  : bool :=
  includes category "tech" || includes category "technology"
  || existsb (fun t => includes t "tech" || includes t "ai"
                       || includes t "artificial intelligence"
                       || includes t "software") tags
  || includes question "artificial intelligence" || includes question "chatgpt"
  || includes question "gpt" || includes question "openai"
  || includes question "software" || includes question "algorithm"
  || includes question "machine learning" || includes question "neural network".

Definition isEntertainment (category : string) (tags : list string)
    (question description : string) : bool :=
  let hasEntertainmentTag :=
    existsb (fun t => existsb (fun k => includes t k) entertainmentKeywords) tags in
  let hasEntertainmentQuestion :=
    existsb (fun k => includes question k) entertainmentKeywords in
  let hasEntertainmentDesc :=
    existsb (fun k => includes description k) entertainmentKeywords in
  includes category "entertainment" || includes category "movies"
  || includes category "film" || includes category "tv"
  || hasEntertainmentTag || hasEntertainmentQuestion || hasEntertainmentDesc.

(** [[...].filter(Boolean).length]. *)
Definition strongCount (category : string) (tags : list string)
    (question description : string) : nat :=
  length
    (List.filter (fun b : bool => b)
       [ includes category "geopolitics" || includes category "geopolitical";
         existsb (fun t => existsb (fun k => includes t k) strongGeopoliticsKeywords)
           tags;
         existsb (fun k => includes question k) strongGeopoliticsKeywords;
         existsb (fun k => includes description k) strongGeopoliticsKeywords ]).

Definition hasWeakIndicator (tags : list string) (question description : string)
  : bool :=
  existsb (fun t => existsb (fun k => includes t k) weakGeopoliticsKeywords) tags
  || existsb (fun k => includes question k) weakGeopoliticsKeywords
  || existsb (fun k => includes description k) weakGeopoliticsKeywords.

Definition isFalsePositive (question description : string) : bool :=
  existsb (fun k => includes question k || includes description k)
    falsePositiveKeywords.

Definition hasStrongGeopoliticsSignal (category : string) (tags : list string)
    (question description : string) : bool :=
  (2 <=? strongCount category tags question description)%nat
  || ((1 <=? strongCount category tags question description)%nat
      && (includes category "geopolitics" || includes category "geopolitical"))
  || ((1 <=? strongCount category tags question description)%nat
      && hasWeakIndicator tags question description).

Definition detectCategoryFromMarket (market : MarketFields) : string :=
  let category := categoryText market in
  let tags := tagTexts market in
  let question := questionText market in
  let description := descriptionText market in
  if isElections category tags question description then "Elections"
  else if isPolitics category tags question then "Politics"
  else if isSports category tags question then "Sports"
  else if isCrypto category tags question then "Crypto"
  else if isEarnings category tags question description then "Earnings"
  else if isFinance category tags question then "Finance"
  else if isTech category tags question then "Tech"
  else if isEntertainment category tags question description then "World"
  else if hasStrongGeopoliticsSignal category tags question description
          && negb (isFalsePositive question description)
  then "Geopolitics"
  else "World".

(** The detection without the false-positive test of its last rule. *)
Definition detectWithoutFalsePositiveTest (market : MarketFields) : string :=
  let category := categoryText market in
  let tags := tagTexts market in
  let question := questionText market in
  let description := descriptionText market in
  if isElections category tags question description then "Elections"
  else if isPolitics category tags question then "Politics"
  else if isSports category tags question then "Sports"
  else if isCrypto category tags question then "Crypto"
  else if isEarnings category tags question description then "Earnings"
  else if isFinance category tags question then "Finance"
  else if isTech category tags question then "Tech"
  else if isEntertainment category tags question description then "World"
  else if hasStrongGeopoliticsSignal category tags question description
  then "Geopolitics"
  else "World".

End WithLowerCase.

End Category.

(** ** Successive generation requests *)

Module Session.
Import Domain.

Section Requests.

Variables Market NewsArticle ScoredMarket NewsRelevance Oracle : Type.
Variable marketId : Market -> string.
Variable sortIds : list string -> list string.
Variable filterCandidateMarkets : AgentProfile -> list Market -> list Market.
Variable scoreMarketForAgent :
  Market -> list NewsArticle -> AgentProfile -> Z -> ScoredMarket.
Variable sortByScore : list ScoredMarket -> list ScoredMarket.
Variable computeNewsRelevance : ScoredMarket -> list NewsArticle -> NewsRelevance.
Variable generateTradeForMarket :
  AgentProfile -> ScoredMarket -> NewsRelevance -> list NewsArticle -> nat -> Z ->
  Oracle -> Completion (option AgentTrade) * Oracle.

(** One call of [generateAgentTrades]: the agent, what the two fetches
    resolved to, and the readings of the clock. *)
Record Request := {
  agentId : AgentId;
  markets : list Market;
  newsArticles : list NewsArticle;
  tGet : Z;
  now : Z;
  nowMs : Z;
  tSet : Z;
}.

(** The calls made one after the other on the module-level cache, with
    the list each of them returns. *)
Fixpoint serve (requests : list Request)
    (agentCache : gmap string (Cache.CacheEntry (list AgentTrade)))
    (oracle : Oracle) : list (AgentId * list AgentTrade) :=
  match requests with
  | [] => []
  | request :: later =>
      let '(trades, agentCache', oracle') :=
        Generator.generateAgentTrades marketId sortIds filterCandidateMarkets
          scoreMarketForAgent sortByScore computeNewsRelevance
          generateTradeForMarket (agentId request) (markets request)
          (newsArticles request) (tGet request) (now request) (nowMs request)
          (tSet request) agentCache oracle in
      (agentId request, trades) :: serve later agentCache' oracle'
  end.

End Requests.

Arguments Request : clear implicits.
Arguments agentId {Market NewsArticle} _.
Arguments markets {Market NewsArticle} _.
Arguments newsArticles {Market NewsArticle} _.
Arguments tGet {Market NewsArticle} _.
Arguments now {Market NewsArticle} _.
Arguments nowMs {Market NewsArticle} _.
Arguments tSet {Market NewsArticle} _.
Arguments serve {Market NewsArticle ScoredMarket NewsRelevance Oracle}.

End Session.

(** ** Predicates used in the statements *)

(** No trade of any agent has status [CLOSED]. *)
Definition noClosedTrade (tradesByAgent : list (string * list Domain.AgentTrade))
  : Prop :=
  Forall (fun entry => Forall (fun t => Domain.status t <> "CLOSED") (snd entry))
    tradesByAgent.


(** What the loop of [computeSummaryStats] knows after the entries [seen]:
    no agent seen has a realized P&L above the best one, and the agent
    retained, if any, is one of them, with the best P&L as its own. *)
Definition rankingInvariant (seen : list (string * list Domain.AgentTrade))
    (vars : Summary.Locals) : Prop :=
  (forall b tb, In (b, tb) seen ->
     JsNumber.gtb (Summary.sumPnl (List.filter Domain.isClosed tb))
       (Summary.var_bestPnl vars) = false)
  /\ match Summary.var_bestAgentByPnl vars with
     | None => True
     | Some a =>
         exists trades,
           In (a, trades) seen
           /\ Summary.sumPnl (List.filter Domain.isClosed trades)
              = Summary.var_bestPnl vars
     end.

(** * Properties *)

(** ** Numbers *)

Lemma float_eqb_false_neq (x y : float) :
  PrimFloat.eqb x y = false -> PrimFloat.eqb y y = true -> x <> y.
Proof. intros Hxy Hyy ->. congruence. Qed.

(** ** Profile lookup *)

Section DomainFacts.
Import Domain.

Lemma getAgentProfile_of_AgentId (a : AgentId) :
  getAgentProfile (agentIdString a) = Return (OwnProfile (profileOf a))
  /\ id (profileOf a) = agentIdString a.
Proof. destruct a; split; reflexivity. Qed.

Lemma ALL_AGENT_IDS_are_AgentIds (s : string) :
  In s ALL_AGENT_IDS <-> exists a, s = agentIdString a.
Proof.
  split.
  - cbn. intros [H|[H|[H|[H|[H|[H|[]]]]]]]; subst s;
      [ exists ID_GROK_4 | exists ID_GPT_5 | exists ID_DEEPSEEK_V3
      | exists ID_GEMINI_2_5 | exists ID_CLAUDE_4_5 | exists ID_QWEN_2_5 ];
      reflexivity.
  - intros [a ->]. destruct a; cbn; tauto.
Qed.

Lemma ownProperty_In (o : list (string * AgentProfile)) (key : string) (p : AgentProfile) :
  ownProperty o key = Some p -> In (key, p) o.
Proof.
  induction o as [|[k v] rest IH]; cbn; [discriminate|].
  destruct (String.eqb_spec k key) as [->|_].
  - intros [= ->]. now left.
  - intros H. right. now apply IH.
Qed.

Lemma ownProperty_None (o : list (string * AgentProfile)) (key : string) :
  ~ In key (map fst o) -> ownProperty o key = None.
Proof.
  induction o as [|[k v] rest IH]; cbn; [reflexivity|].
  intros Hnot. destruct (String.eqb_spec k key) as [->|_].
  - exfalso. apply Hnot. now left.
  - apply IH. intros Hin. apply Hnot. now right.
Qed.

(** The lookup never hands out the profile of another agent. *)
Lemma getAgentProfile_own_profile (agentId : string) (p : AgentProfile) :
  getAgentProfile agentId = Return (OwnProfile p) -> id p = agentId.
Proof.
  unfold getAgentProfile, getProperty.
  destruct (ownProperty AGENT_PROFILES agentId) as [q|] eqn:Hown.
  - intros [= <-]. apply ownProperty_In in Hown. cbn in Hown.
    repeat (destruct Hown as [[= <- <-]|Hown]; [reflexivity|]). destruct Hown.
  - destruct (existsb _ _); discriminate.
Qed.

(** A string that names neither a profile nor a property of
    [Object.prototype] makes the lookup throw, and the message names it. *)
Lemma getAgentProfile_unknown (agentId : string) :
  ~ In agentId ALL_AGENT_IDS ->
  ~ In agentId Object_prototype_keys ->
  getAgentProfile agentId = Throw (String.append "Unknown agent ID: " agentId).
Proof.
  intros Hid Hproto. unfold getAgentProfile, getProperty.
  rewrite (ownProperty_None _ _ Hid).
  destruct (existsb (String.eqb agentId) Object_prototype_keys) eqn:Hex;
    [|reflexivity].
  exfalso. apply Hproto. apply existsb_exists in Hex as (k & Hk & Heq).
  apply String.eqb_eq in Heq. now subst k.
Qed.

(** C9: [getAgentProfile] does not throw on every string outside the fixed
    agent ids: on ["constructor"], which is not an agent id, the property
    read finds the member inherited from [Object.prototype], the guard
    [!profile] is false, and that member is returned instead of an error
    (the same holds for the eleven other inherited names). *)
Theorem getAgentProfile_inherited_name_not_rejected :
  ~ In "constructor" ALL_AGENT_IDS
  /\ getAgentProfile "constructor" = Return (Inherited "constructor")
  /\ isValidAgentId "constructor" = true
  /\ forall key, In key Object_prototype_keys ->
       ~ In key ALL_AGENT_IDS /\ getAgentProfile key = Return (Inherited key).
Proof.
  split; [|split; [|split]].
  - cbn. intros [H|[H|[H|[H|[H|[H|[]]]]]]]; discriminate H.
  - reflexivity.
  - reflexivity.
  - intros key Hkey. cbn in Hkey.
    repeat (destruct Hkey as [<-|Hkey];
            [split; [cbn; intros [H|[H|[H|[H|[H|[H|[]]]]]]]; discriminate H
                    | reflexivity]|]).
    destruct Hkey.
Qed.

Example getAgentProfile_GROK_4 :
  getAgentProfile "GROK_4" = Return (OwnProfile GROK_4)
  /\ getAgentProfile "grok" = Throw "Unknown agent ID: grok"
  /\ getAgentProfile "" = Throw "Unknown agent ID: ".
Proof. repeat split. Qed.

End DomainFacts.

(** ** Summary across agents *)

Section SummaryFacts.
Import Domain Summary.

Lemma filter_isClosed_nil (trades : list AgentTrade) :
  Forall (fun t => status t <> "CLOSED") trades -> List.filter isClosed trades = [].
Proof.
  induction 1 as [|t trades Ht _ IH]; cbn; [reflexivity|].
  unfold isClosed at 1.
  destruct (String.eqb_spec (status t) "CLOSED"); [contradiction|exact IH].
Qed.

(** An agent without closed trade has P&L [0]: it replaces a best P&L of
    [-Infinity] and leaves a best P&L of [0] alone. *)
Lemma visitAgent_idle (vars : Locals) (agentId : string) (trades : list AgentTrade) :
  Forall (fun t => status t <> "CLOSED") trades ->
  var_bestPnl (visitAgent vars (agentId, trades))
    = (if JsNumber.gtb 0 (var_bestPnl vars) then 0%float else var_bestPnl vars)
  /\ var_bestAgentByPnl (visitAgent vars (agentId, trades))
    = (if JsNumber.gtb 0 (var_bestPnl vars) then Some agentId
       else var_bestAgentByPnl vars).
Proof.
  intros Hidle. unfold visitAgent. rewrite (filter_isClosed_nil _ Hidle).
  cbn. split; reflexivity.
Qed.

Lemma fold_visitAgent_idle (tradesByAgent : list (string * list AgentTrade)) :
  noClosedTrade tradesByAgent ->
  forall vars, var_bestPnl vars = 0%float ->
    var_bestPnl (fold_left visitAgent tradesByAgent vars) = 0%float
    /\ var_bestAgentByPnl (fold_left visitAgent tradesByAgent vars)
       = var_bestAgentByPnl vars.
Proof.
  induction 1 as [|[agentId trades] rest Hidle _ IH]; intros vars Hbest;
    cbn [fold_left].
  - split; [exact Hbest|reflexivity].
  - destruct (visitAgent_idle vars agentId trades Hidle) as [Hpnl Hagent].
    rewrite Hbest in Hpnl, Hagent.
    change (JsNumber.gtb 0 0) with false in Hpnl, Hagent.
    destruct (IH _ Hpnl) as [IHpnl IHagent]. split; [exact IHpnl|].
    rewrite IHagent. exact Hagent.
Qed.

Lemma bestAgentByPnl_of_idle_agents (tradesByAgent : list (string * list AgentTrade)) :
  noClosedTrade tradesByAgent ->
  bestAgentByPnl (computeSummaryStats tradesByAgent)
    = head (map fst tradesByAgent).
Proof.
  intros Hidle. unfold computeSummaryStats; cbn [bestAgentByPnl].
  destruct Hidle as [|[agentId trades] rest Hfirst Hrest]; [reflexivity|].
  cbn [fold_left map head fst].
  destruct (visitAgent_idle initial agentId trades Hfirst) as [Hpnl Hagent].
  change (JsNumber.gtb 0 (var_bestPnl initial)) with true in Hpnl, Hagent.
  destruct (fold_visitAgent_idle rest Hrest _ Hpnl) as [Hpnl' Hagent'].
  rewrite Hpnl', Hagent', Hagent. reflexivity.
Qed.

(** C1 (as amended): in a mapping where no agent has a closed trade, every
    agent's P&L is [0], which exceeds the initial best of [-Infinity]:
    [bestAgentByPnl] is the first agent enumerated, and for such a mapping
    it is [null] exactly when the mapping has no agent. *)
Theorem computeSummaryStats_no_closed_trade
    (tradesByAgent : list (string * list AgentTrade)) :
  noClosedTrade tradesByAgent ->
  bestAgentByPnl (computeSummaryStats tradesByAgent)
    = head (map fst tradesByAgent)
  /\ (bestAgentByPnl (computeSummaryStats tradesByAgent) = None
      <-> tradesByAgent = []).
Proof.
  intros Hidle. pose proof (bestAgentByPnl_of_idle_agents _ Hidle) as Hbest.
  split; [exact Hbest|]. rewrite Hbest.
  destruct tradesByAgent as [|[agentId trades] rest]; cbn; split;
    intros; congruence.
Qed.

Lemma computeSummaryStats_no_closed_trade_witness :
  noClosedTrade
    [ ("GROK_4", [ {| status := "OPEN"; pnl := JsNumber.Undefined; investmentUsd := 100 |} ]);
      ("GPT_5", []) ]
  /\ bestAgentByPnl
       (computeSummaryStats
          [ ("GROK_4", [ {| status := "OPEN"; pnl := JsNumber.Undefined; investmentUsd := 100 |} ]);
            ("GPT_5", []) ])
     = Some "GROK_4".
Proof.
  assert (Hidle : noClosedTrade
    [ ("GROK_4", [ {| status := "OPEN"; pnl := JsNumber.Undefined; investmentUsd := 100 |} ]);
      ("GPT_5", []) ])
    by (repeat constructor; cbn; discriminate).
  split; [exact Hidle|].
  exact (proj1 (computeSummaryStats_no_closed_trade _ Hidle)).
Defined.

(** C1 (as stated) fails: one agent whose only trade is open is reported as
    the best agent. *)
Lemma computeSummaryStats_idle_agent_is_best :
  ~ (forall tradesByAgent : list (string * list AgentTrade),
       noClosedTrade tradesByAgent ->
       bestAgentByPnl (computeSummaryStats tradesByAgent) = None).
Proof.
  intros Hclaim.
  specialize (Hclaim
    [ ("GROK_4", [ {| status := "OPEN"; pnl := JsNumber.Undefined; investmentUsd := 100 |} ]) ]).
  cbn in Hclaim.
  assert (Hidle : noClosedTrade
    [ ("GROK_4", [ {| status := "OPEN"; pnl := JsNumber.Undefined; investmentUsd := 100 |} ]) ])
    by (repeat constructor; cbn; discriminate).
  specialize (Hclaim Hidle). discriminate Hclaim.
Qed.

(** With closed trades the best agent is the one with the largest realized
    P&L, the first such agent on a tie. *)
Example computeSummaryStats_sample :
  computeSummaryStats
    [ ("GROK_4", [ {| status := "CLOSED"; pnl := JsNumber.Num (-3); investmentUsd := 100 |};
                   {| status := "OPEN"; pnl := JsNumber.Null; investmentUsd := 50 |} ]);
      ("GPT_5", [ {| status := "CLOSED"; pnl := JsNumber.Num 5; investmentUsd := 100 |};
                  {| status := "CLOSED"; pnl := JsNumber.Num 2.5; investmentUsd := 100 |} ]);
      ("QWEN_2_5", [ {| status := "CLOSED"; pnl := JsNumber.Num 7.5; investmentUsd := 10 |} ]) ]
  = {| totalPnl := 12; openTradesCount := 1; closedTradesCount := 4;
       bestAgentByPnl := Some "GPT_5" |}.
Proof. reflexivity. Qed.

End SummaryFacts.

(** ** Agent trade cache *)

Section CacheFacts.
Import Cache.
Context {Trades : Type}.

Lemma marketIdsDiffer_same (ids : list string) : marketIdsDiffer ids ids = false.
Proof.
  induction ids as [|m ids IH]; cbn; [reflexivity|].
  now rewrite String.eqb_refl.
Qed.

Lemma marketIdsDiffer_false_eq (recorded current : list string) :
  length recorded = length current ->
  marketIdsDiffer recorded current = false -> recorded = current.
Proof.
  revert current.
  induction recorded as [|r recorded IH]; intros [|c current]; cbn;
    try discriminate; [reflexivity|].
  intros [= Hlen]. destruct (String.eqb_spec r c) as [->|_]; cbn; [|discriminate].
  intros Hrest. f_equal. now apply IH.
Qed.

(** What a lookup does on an entry it finds. *)
Lemma getCachedAgentTrades_found (agentId : string) (currentMarketIds : list string)
    (now : Z) (agentCache : gmap string (CacheEntry Trades)) (entry : CacheEntry Trades) :
  agentCache !! agentId = Some entry ->
  getCachedAgentTrades agentId currentMarketIds now agentCache
  = if (now - generatedAt entry <? CACHE_TTL_MS)%Z
       && bool_decide (marketIds entry = currentMarketIds)
    then (Some (trades entry), agentCache)
    else (None, delete agentId agentCache).
Proof.
  intros Hentry. unfold getCachedAgentTrades. rewrite Hentry.
  rewrite Z.geb_leb, Z.ltb_antisym.
  destruct (CACHE_TTL_MS <=? now - generatedAt entry)%Z; cbn [negb andb];
    [reflexivity|].
  case_bool_decide as Hids.
  - rewrite Hids, Nat.eqb_refl, marketIdsDiffer_same. reflexivity.
  - destruct (Nat.eqb_spec (length (marketIds entry)) (length currentMarketIds))
      as [Hlen|_]; cbn [negb]; [|reflexivity].
    destruct (marketIdsDiffer (marketIds entry) currentMarketIds) eqn:Hdiff;
      [reflexivity|].
    exfalso. apply Hids. now apply marketIdsDiffer_false_eq.
Qed.

(** C3: after [setCachedAgentTrades(agent, trades, S)] at time [t0], a
    lookup with [S] less than 30 seconds later returns [trades] and keeps the
    entry; a lookup with any other list of market ids returns [null] and
    evicts the entry; a lookup 30 seconds later or more returns [null] and
    evicts the entry. *)
Theorem agent_trade_cache_contract (agentCache : gmap string (CacheEntry Trades))
    (agentId : string) (trades : Trades) (S : list string) (t0 : Z) :
  let cached := setCachedAgentTrades agentId trades S t0 agentCache in
  (forall t1, (t1 - t0 < 30 * 1000)%Z ->
     getCachedAgentTrades agentId S t1 cached = (Some trades, cached))
  /\ (forall t1 S', S' <> S ->
        getCachedAgentTrades agentId S' t1 cached = (None, delete agentId cached))
  /\ (forall t1 S', (30 * 1000 <= t1 - t0)%Z ->
        getCachedAgentTrades agentId S' t1 cached = (None, delete agentId cached))
  /\ delete agentId cached !! agentId = None.
Proof.
  intros cached.
  assert (Hentry : cached !! agentId
                   = Some {| Cache.trades := trades; generatedAt := t0; marketIds := S |})
    by apply lookup_insert_eq.
  repeat split.
  - intros t1 Hfresh. rewrite (getCachedAgentTrades_found _ _ _ _ _ Hentry).
    cbn [generatedAt marketIds Cache.trades].
    rewrite bool_decide_eq_true_2 by reflexivity.
    replace (t1 - t0 <? CACHE_TTL_MS)%Z with true; [reflexivity|].
    symmetry. apply Z.ltb_lt. exact Hfresh.
  - intros t1 S' Hother. rewrite (getCachedAgentTrades_found _ _ _ _ _ Hentry).
    cbn [generatedAt marketIds Cache.trades].
    rewrite bool_decide_eq_false_2 by congruence.
    now rewrite andb_false_r.
  - intros t1 S' Hstale. rewrite (getCachedAgentTrades_found _ _ _ _ _ Hentry).
    cbn [generatedAt marketIds Cache.trades].
    replace (t1 - t0 <? CACHE_TTL_MS)%Z with false; [reflexivity|].
    symmetry. apply Z.ltb_ge. exact Hstale.
  - apply lookup_delete_eq.
Qed.

End CacheFacts.

Lemma agent_trade_cache_contract_witness :
  let cached :=
    Cache.setCachedAgentTrades "GROK_4" [7; 8] ["m1"; "m2"] 1000000 ∅ in
  Cache.getCachedAgentTrades "GROK_4" ["m1"; "m2"] 1029999 cached
    = (Some [7; 8], cached)
  /\ Cache.getCachedAgentTrades "GROK_4" ["m1"; "m3"] 1000001 cached
     = (None, delete "GROK_4" cached)
  /\ Cache.getCachedAgentTrades "GROK_4" ["m1"; "m2"] 1030000 cached
     = (None, delete "GROK_4" cached).
Proof.
  intros cached.
  destruct (agent_trade_cache_contract (Trades := list nat) ∅ "GROK_4" [7; 8]
              ["m1"; "m2"] 1000000) as (Hhit & Hother & Hstale & _).
  split; [|split].
  - apply Hhit. lia.
  - apply Hother. discriminate.
  - apply Hstale. lia.
Defined.

(** ** Exit rules and realized P&L *)

Section LifecycleFacts.
Import Lifecycle.

(** C4: a YES position closes at probability exactly 0.80 and stays open
    at 0.79 when the holding time is under 30 days and the score, if any, is
    not below 20; a NO position closes at exactly 0.20 and at exactly 0.70;
    a YES position closes at exactly 0.30. *)
Theorem shouldClosePosition_boundaries (position : Position) (market : Market)
    (score : option float) (now : float) :
  (side position = YES -> currentProbability market = 0.8%float ->
     shouldClosePosition position market score now = true)
  /\ (side position = YES -> currentProbability market = 0.79%float ->
      JsNumber.geb (daysOpen position now) 30 = false ->
      scoreDecayed score = false ->
      shouldClosePosition position market score now = false)
  /\ (side position = NO -> currentProbability market = 0.2%float ->
      shouldClosePosition position market score now = true)
  /\ (side position = NO -> currentProbability market = 0.7%float ->
      shouldClosePosition position market score now = true)
  /\ (side position = YES -> currentProbability market = 0.3%float ->
      shouldClosePosition position market score now = true).
Proof.
  unfold shouldClosePosition. repeat split.
  - intros -> ->. reflexivity.
  - intros -> -> Hdays Hscore.
    change MAX_HOLDING_DAYS with 30%float. rewrite Hdays, Hscore. reflexivity.
  - intros -> ->. reflexivity.
  - intros -> ->. reflexivity.
  - intros -> ->. reflexivity.
Qed.

Lemma shouldClosePosition_boundaries_witness :
  let opened := 1700000000000%float in
  let day := 86400000%float in
  let yes := {| side := YES; entryProbability := 0.5; sizeUsd := 100;
                openedAt := opened; unrealizedPnl := 0 |} in
  let no := {| side := NO; entryProbability := 0.5; sizeUsd := 100;
               openedAt := opened; unrealizedPnl := 0 |} in
  shouldClosePosition yes {| currentProbability := 0.8 |} None (opened + day) = true
  /\ shouldClosePosition yes {| currentProbability := 0.79 |} (Some 20%float)
       (opened + day) = false
  /\ shouldClosePosition no {| currentProbability := 0.2 |} None (opened + day) = true
  /\ shouldClosePosition no {| currentProbability := 0.7 |} None (opened + day) = true
  /\ shouldClosePosition yes {| currentProbability := 0.3 |} None (opened + day) = true.
Proof.
  intros opened day yes no. split; [|split; [|split; [|split]]].
  - exact (proj1 (shouldClosePosition_boundaries yes {| currentProbability := 0.8 |}
                    None (opened + day)) eq_refl eq_refl).
  - exact (proj1 (proj2 (shouldClosePosition_boundaries yes
                           {| currentProbability := 0.79 |} (Some 20%float)
                           (opened + day)))
             eq_refl eq_refl eq_refl eq_refl).
  - exact (proj1 (proj2 (proj2 (shouldClosePosition_boundaries no
                                  {| currentProbability := 0.2 |} None
                                  (opened + day))))
             eq_refl eq_refl).
  - exact (proj1 (proj2 (proj2 (proj2 (shouldClosePosition_boundaries no
                                         {| currentProbability := 0.7 |} None
                                         (opened + day)))))
             eq_refl eq_refl).
  - exact (proj2 (proj2 (proj2 (proj2 (shouldClosePosition_boundaries yes
                                         {| currentProbability := 0.3 |} None
                                         (opened + day)))))
             eq_refl eq_refl).
Defined.

(** C5 (as amended): the realized P&L is [(exit - entry) * size] for YES and
    [(entry - exit) * size] for NO, computed in binary64.  The NO example
    (entry 0.60, size 100, exit 0.30) yields exactly 30; the YES example
    (entry 0.40, size 100, exit 0.70) yields 29.999999999999993, since
    [0.7 - 0.4] is rounded to 0.29999999999999993. *)
Theorem calculateRealizedPnl_formula (position : Position) (exitProbability : float) :
  (side position = YES ->
     calculateRealizedPnl position exitProbability
     = ((exitProbability - entryProbability position) * sizeUsd position)%float)
  /\ (side position = NO ->
      calculateRealizedPnl position exitProbability
      = ((entryProbability position - exitProbability) * sizeUsd position)%float)
  /\ (forall opened unrealized,
        calculateRealizedPnl
          {| side := YES; entryProbability := 0.4; sizeUsd := 100;
             openedAt := opened; unrealizedPnl := unrealized |} 0.7
        = 29.999999999999993%float)
  /\ (forall opened unrealized,
        calculateRealizedPnl
          {| side := NO; entryProbability := 0.6; sizeUsd := 100;
             openedAt := opened; unrealizedPnl := unrealized |} 0.3
        = 30%float).
Proof.
  unfold calculateRealizedPnl. repeat split.
  - intros ->. reflexivity.
  - intros ->. reflexivity.
Qed.

Lemma calculateRealizedPnl_formula_witness :
  calculateRealizedPnl
    {| side := YES; entryProbability := 0.25; sizeUsd := 200;
       openedAt := 0; unrealizedPnl := 0 |} 0.75
  = 100%float
  /\ calculateRealizedPnl
       {| side := NO; entryProbability := 0.75; sizeUsd := 200;
          openedAt := 0; unrealizedPnl := 0 |} 0.25
     = 100%float.
Proof.
  split.
  - rewrite (proj1 (calculateRealizedPnl_formula
                      {| side := YES; entryProbability := 0.25; sizeUsd := 200;
                         openedAt := 0; unrealizedPnl := 0 |} 0.75) eq_refl).
    reflexivity.
  - rewrite (proj1 (proj2 (calculateRealizedPnl_formula
                      {| side := NO; entryProbability := 0.75; sizeUsd := 200;
                         openedAt := 0; unrealizedPnl := 0 |} 0.25)) eq_refl).
    reflexivity.
Defined.

(** C5 (as stated) fails on its YES example: the result is not 30. *)
Lemma calculateRealizedPnl_yes_example_is_not_30 :
  calculateRealizedPnl
    {| side := YES; entryProbability := 0.4; sizeUsd := 100;
       openedAt := 0; unrealizedPnl := 0 |} 0.7
  <> 30%float.
Proof. apply float_eqb_false_neq; reflexivity. Qed.

(** The flip rule, as the three tests of the code. *)
Lemma shouldFlipPosition_conditions (position : Position) (market : Market)
    (agent : Domain.AgentProfile) (newConfidence : float) :
  shouldFlipPosition position market agent newConfidence
  = (match side position with
     | YES => PrimFloat.ltb (currentProbability market) (entryProbability position)
     | NO => JsNumber.gtb (currentProbability market) (entryProbability position)
     end)
    && negb (PrimFloat.ltb newConfidence 0.7)
    && negb (PrimFloat.ltb
               (PrimFloat.abs (currentProbability market - entryProbability position))
               0.1).
Proof.
  unfold shouldFlipPosition.
  destruct (match side position with YES => _ | NO => _ end); cbn [negb andb];
    [|reflexivity].
  destruct (PrimFloat.ltb newConfidence 0.7); cbn [negb andb]; [reflexivity|].
  destruct (PrimFloat.ltb _ 0.1); reflexivity.
Qed.

(** C8: a losing YES position (entry 0.60, now 0.40, a move of 0.2) is
    flipped at a confidence of exactly 0.70, which does not exceed 0.70: the
    code rejects only [newConfidence < 0.7], where its comment asks for
    [> 0.7]. *)
Theorem shouldFlipPosition_at_confidence_threshold :
  let position := {| side := YES; entryProbability := 0.6; sizeUsd := 100;
                     openedAt := 0; unrealizedPnl := -20 |} in
  let market := {| currentProbability := 0.4 |} in
  JsNumber.gtb 0.7 0.7 = false
  /\ forall agent, shouldFlipPosition position market agent 0.7 = true.
Proof. split; reflexivity. Qed.

End LifecycleFacts.

(** ** The batch over open positions *)

Section BatchFacts.
Import Lifecycle.

Variable marketsMap : gmap string Market.
Variable scoresMap : option (gmap string float).
Variable now : string -> float.

Local Abbreviation visit := (visitPosition marketsMap scoresMap now).
Local Abbreviation closes := (closesEntry marketsMap scoresMap now).
Local Abbreviation byRule := (closedByRule marketsMap scoresMap now).
Local Abbreviation record := (closedRecord marketsMap).
Local Abbreviation deletedBy := (Lifecycle.deletedBy marketsMap scoresMap now).

(** The effect of one iteration. *)
Lemma visitPosition_cases (portfolio : Portfolio) (closed : list ClosedPosition)
    (entry : string * Position) :
  visit (portfolio, closed) entry
  = if closes entry then
      ({| openPositions := deleteProperty (fst entry) (openPositions portfolio);
          realizedPnlUsd :=
            if byRule entry
            then (realizedPnlUsd portfolio + realizedPnl (record entry))%float
            else realizedPnlUsd portfolio;
          currentCapitalUsd :=
            if byRule entry
            then (currentCapitalUsd portfolio + realizedPnl (record entry))%float
            else currentCapitalUsd portfolio |},
       closed ++ [record entry])
    else (portfolio, closed).
Proof.
  destruct entry as [marketId position].
  unfold visitPosition, closedByRule, closesEntry, closedRecord. cbn [fst snd].
  destruct (marketsMap !! marketId) as [market|]; [|reflexivity].
  destruct (shouldClosePosition _ _ _ _); reflexivity.
Qed.

Lemma property_deleteProperty_same {A} (key : string) (o : list (string * A)) :
  property (deleteProperty key o) key = None.
Proof.
  induction o as [|[k v] o IH]; cbn; [reflexivity|].
  destruct (String.eqb_spec k key) as [->|Hne]; cbn; [exact IH|].
  destruct (String.eqb_spec k key); [contradiction|exact IH].
Qed.

Lemma property_deleteProperty_other {A} (key k : string) (o : list (string * A)) :
  k <> key -> property (deleteProperty key o) k = property o k.
Proof.
  intros Hne. induction o as [|[k' v] o IH]; cbn; [reflexivity|].
  destruct (String.eqb_spec k' key) as [->|Hne']; cbn.
  - destruct (String.eqb_spec key k); [congruence|exact IH].
  - destruct (String.eqb_spec k' k); [reflexivity|exact IH].
Qed.

Lemma property_unique {A} (o : list (string * A)) (k : string) (v : A) :
  List.NoDup (map fst o) -> In (k, v) o -> property o k = Some v.
Proof.
  induction o as [|[k' v'] o IH]; cbn; [tauto|].
  intros Hnodup [Hhead|Htail].
  - injection Hhead as -> ->. now rewrite String.eqb_refl.
  - apply List.NoDup_cons_iff in Hnodup as [Hfresh Hnodup].
    destruct (String.eqb_spec k' k) as [->|_]; [|now apply IH].
    exfalso. apply Hfresh. apply in_map_iff. now exists (k, v).
Qed.

Lemma property_filter_keep {A} (keep : string * A -> bool) (o : list (string * A))
    (k : string) (v : A) :
  List.NoDup (map fst o) -> In (k, v) o -> keep (k, v) = true ->
  property (List.filter keep o) k = Some v.
Proof.
  intros Hnodup Hin Hkeep. apply property_unique.
  - clear Hin Hkeep. induction o as [|e o IH]; cbn; [constructor|].
    cbn in Hnodup. apply List.NoDup_cons_iff in Hnodup as [Hfresh Hnodup].
    destruct (keep e); cbn; [|now apply IH].
    constructor; [|now apply IH]. intros Hin. apply Hfresh.
    apply in_map_iff in Hin as (e' & He' & Hin').
    apply filter_In in Hin' as [Hin' _]. apply in_map_iff. now exists e'.
  - apply filter_In. now split.
Qed.

Lemma filter_filter_and {A} (f g : A -> bool) (l : list A) :
  List.filter f (List.filter g l) = List.filter (fun x => g x && f x) l.
Proof.
  induction l as [|x l IH]; cbn; [reflexivity|].
  destruct (g x); cbn; [|exact IH]. destruct (f x); now rewrite IH.
Qed.

Lemma fold_visitPosition (es : list (string * Position)) :
  forall (portfolio : Portfolio) (closed : list ClosedPosition),
    let result := fold_left visit es (portfolio, closed) in
    openPositions (fst result)
      = List.filter (fun e => negb (deletedBy es e)) (openPositions portfolio)
    /\ snd result = closed ++ map record (List.filter closes es)
    /\ realizedPnlUsd (fst result)
       = fold_left (fun total e => (total + realizedPnl (record e))%float)
           (List.filter byRule es) (realizedPnlUsd portfolio)
    /\ currentCapitalUsd (fst result)
       = fold_left (fun total e => (total + realizedPnl (record e))%float)
           (List.filter byRule es) (currentCapitalUsd portfolio).
Proof.
  induction es as [|e es IH]; intros portfolio closed; cbn [fold_left].
  - cbn. repeat split.
    + induction (openPositions portfolio) as [|x o IHo]; cbn; congruence.
    + now rewrite app_nil_r.
  - rewrite visitPosition_cases.
    assert (Hrule : byRule e = true -> closes e = true).
    { unfold closedByRule. destruct (marketsMap !! fst e); [tauto|discriminate]. }
    destruct (closes e) eqn:Hcloses.
    + specialize (IH
        {| openPositions := deleteProperty (fst e) (openPositions portfolio);
           realizedPnlUsd :=
             if byRule e
             then (realizedPnlUsd portfolio + realizedPnl (record e))%float
             else realizedPnlUsd portfolio;
           currentCapitalUsd :=
             if byRule e
             then (currentCapitalUsd portfolio + realizedPnl (record e))%float
             else currentCapitalUsd portfolio |}
        (closed ++ [record e])).
      cbn zeta in IH. destruct IH as (Hopen & Hclosed & Hpnl & Hcapital).
      cbn [openPositions realizedPnlUsd currentCapitalUsd] in Hopen, Hpnl, Hcapital.
      repeat split.
      * rewrite Hopen. unfold deleteProperty. rewrite filter_filter_and.
        apply filter_ext. intros x. unfold Lifecycle.deletedBy.
        cbn [existsb]. rewrite Hcloses. cbn [andb].
        rewrite (String.eqb_sym (fst e) (fst x)), negb_orb. reflexivity.
      * rewrite Hclosed. cbn [List.filter]. rewrite Hcloses. cbn [map].
        now rewrite <- app_assoc.
      * rewrite Hpnl. cbn [List.filter].
        destruct (byRule e); reflexivity.
      * rewrite Hcapital. cbn [List.filter].
        destruct (byRule e); reflexivity.
    + specialize (IH portfolio closed). cbn zeta in IH.
      destruct IH as (Hopen & Hclosed & Hpnl & Hcapital).
      assert (Hnot : byRule e = false).
      { destruct (byRule e); [|reflexivity]. discriminate (Hrule eq_refl). }
      repeat split.
      * rewrite Hopen. apply filter_ext. intros x. unfold Lifecycle.deletedBy.
        cbn [existsb]. now rewrite Hcloses.
      * rewrite Hclosed. cbn [List.filter]. now rewrite Hcloses.
      * rewrite Hpnl. cbn [List.filter]. now rewrite Hnot.
      * rewrite Hcapital. cbn [List.filter]. now rewrite Hnot.
Qed.

Lemma deletedBy_unique (es : list (string * Position)) (e : string * Position) :
  List.NoDup (map fst es) -> In e es -> deletedBy es e = closes e.
Proof.
  intros Hnodup Hin. unfold Lifecycle.deletedBy.
  destruct (closes e) eqn:Hcloses.
  - apply existsb_exists. exists e. split; [exact Hin|].
    now rewrite Hcloses, String.eqb_refl.
  - destruct (existsb _ es) eqn:Hex; [|reflexivity].
    apply existsb_exists in Hex as (e' & Hin' & Hboth).
    apply andb_prop in Hboth as [Hcloses' Hkey]. apply String.eqb_eq in Hkey.
    assert (e' = e); [|congruence].
    destruct e as [k v], e' as [k' v']. cbn in Hkey. subst k'.
    pose proof (property_unique es k v Hnodup Hin) as Hv.
    pose proof (property_unique es k v' Hnodup Hin') as Hv'. congruence.
Qed.

(** The batch, entry by entry: the positions that stay, the records
    returned, and the running totals, to which only the positions closed by
    an exit rule contribute. *)
Lemma processPositionLifecycle_effect (portfolio : Portfolio) :
  uniqueKeys portfolio ->
  let result := processPositionLifecycle portfolio marketsMap scoresMap now in
  openPositions (fst result)
    = List.filter (fun e => negb (closes e)) (openPositions portfolio)
  /\ snd result = map record (List.filter closes (openPositions portfolio))
  /\ realizedPnlUsd (fst result)
     = fold_left (fun total e => (total + realizedPnl (record e))%float)
         (List.filter byRule (openPositions portfolio)) (realizedPnlUsd portfolio)
  /\ currentCapitalUsd (fst result)
     = fold_left (fun total e => (total + realizedPnl (record e))%float)
         (List.filter byRule (openPositions portfolio)) (currentCapitalUsd portfolio).
Proof.
  intros Hunique. unfold processPositionLifecycle. cbn zeta.
  destruct (fold_visitPosition (openPositions portfolio) portfolio [])
    as (Hopen & Hclosed & Hpnl & Hcapital).
  split; [|split; [|split]]; try assumption.
  rewrite Hopen. apply filter_ext_in. intros e Hin.
  now rewrite deletedBy_unique.
Qed.

Lemma filter_key_unique (o : list (string * Position)) (k : string) (v : Position) :
  List.NoDup (map fst o) -> In (k, v) o ->
  List.filter (fun e => String.eqb (fst e) k) o = [(k, v)].
Proof.
  induction o as [|[k' v'] o IH]; cbn; [tauto|].
  intros Hnodup Hin. apply List.NoDup_cons_iff in Hnodup as [Hfresh Hnodup].
  assert (Hnone : forall l : list (string * Position),
             ~ In k (map fst l) -> List.filter (fun e => String.eqb (fst e) k) l = []).
  { induction l as [|[k0 v0] l IHl]; cbn; [reflexivity|]. intros Hnot.
    destruct (String.eqb_spec k0 k) as [->|_]; [tauto|]. apply IHl. tauto. }
  destruct Hin as [Hhead|Htail].
  - injection Hhead as -> ->. rewrite String.eqb_refl. f_equal. now apply Hnone.
  - destruct (String.eqb_spec k' k) as [->|_]; [|now apply IH].
    exfalso. apply Hfresh. apply in_map_iff. now exists (k, v).
Qed.

(** C6: a position whose market is absent from the snapshot is closed with
    its last unrealized P&L as the realized value and leaves the open
    positions.  That close pushes one record and deletes one key: every
    other property of [openPositions] is as before it.  At the end of the
    batch every position that meets no exit rule is still open, unchanged;
    and when the delisted position is the only one to close, the batch
    returns just its record and the open positions are the former ones
    without it. *)
Theorem delisted_position_force_closed (portfolio : Portfolio) (marketId : string)
    (position : Position) :
  uniqueKeys portfolio ->
  In (marketId, position) (openPositions portfolio) ->
  marketsMap !! marketId = None ->
  let result := processPositionLifecycle portfolio marketsMap scoresMap now in
  let forced := {| Lifecycle.position := position;
                   realizedPnl := unrealizedPnl position |} in
  In forced (snd result)
  /\ property (openPositions (fst result)) marketId = None
  /\ (forall current closed,
        let step := visit (current, closed) (marketId, position) in
        snd step = closed ++ [forced]
        /\ openPositions (fst step) = deleteProperty marketId (openPositions current)
        /\ forall k, k <> marketId ->
             property (openPositions (fst step)) k = property (openPositions current) k)
  /\ (forall k p, In (k, p) (openPositions portfolio) -> closes (k, p) = false ->
        property (openPositions (fst result)) k = Some p)
  /\ ((forall e, In e (openPositions portfolio) -> fst e <> marketId ->
         closes e = false) ->
      openPositions (fst result) = deleteProperty marketId (openPositions portfolio)
      /\ snd result = [forced]).
Proof.
  intros Hunique Hin Hgone result forced.
  destruct (processPositionLifecycle_effect portfolio Hunique)
    as (Hopen & Hclosed & Hpnl & Hcapital).
  fold result in Hopen, Hclosed, Hpnl, Hcapital.
  assert (Hcloses : closes (marketId, position) = true).
  { unfold closesEntry. cbn [fst]. now rewrite Hgone. }
  assert (Hrecord : record (marketId, position) = forced).
  { unfold closedRecord. cbn [fst snd]. now rewrite Hgone. }
  split; [|split; [|split; [|split]]].
  - rewrite Hclosed, <- Hrecord. apply in_map. apply filter_In. now split.
  - rewrite Hopen.
    destruct (property (List.filter _ (openPositions portfolio)) marketId)
      as [p|] eqn:Hp; [|reflexivity].
    exfalso. clear - Hp Hgone.
    induction (openPositions portfolio) as [|[k v] o IH]; cbn in Hp;
      [discriminate|].
    destruct (closes (k, v)) eqn:Hkv; cbn in Hp; [now apply IH|].
    destruct (String.eqb_spec k marketId) as [->|_]; [|now apply IH].
    unfold closesEntry in Hkv. cbn [fst] in Hkv. rewrite Hgone in Hkv.
    discriminate.
  - intros current closed. unfold visitPosition. rewrite Hgone.
    cbn [fst snd openPositions]. split; [reflexivity|]. split; [reflexivity|].
    intros k Hk. now apply property_deleteProperty_other.
  - intros k p Hkp Hstays. rewrite Hopen.
    apply (property_filter_keep (fun e => negb (closes e))); try assumption.
    now rewrite Hstays.
  - intros Hothers.
    assert (Hkey : forall e, In e (openPositions portfolio) ->
                     closes e = String.eqb (fst e) marketId).
    { intros e He. destruct (String.eqb_spec (fst e) marketId) as [Heq|Hne].
      - unfold closesEntry. now rewrite Heq, Hgone.
      - now apply Hothers. }
    split.
    + rewrite Hopen. unfold deleteProperty. apply filter_ext_in.
      intros e He. now rewrite (Hkey e He).
    + rewrite Hclosed, (filter_ext_in _ _ _ Hkey).
      rewrite (filter_key_unique _ _ _ Hunique Hin). cbn [map].
      now rewrite Hrecord.
Qed.

End BatchFacts.

Lemma delisted_position_force_closed_witness :
  let delisted := {| Lifecycle.side := Lifecycle.YES; Lifecycle.entryProbability := 0.5;
                     Lifecycle.sizeUsd := 100; Lifecycle.openedAt := 0;
                     Lifecycle.unrealizedPnl := 5 |} in
  let held := {| Lifecycle.side := Lifecycle.NO; Lifecycle.entryProbability := 0.4;
                 Lifecycle.sizeUsd := 50; Lifecycle.openedAt := 0;
                 Lifecycle.unrealizedPnl := -1 |} in
  let portfolio := {| Lifecycle.openPositions := [("m1", delisted); ("m2", held)];
                      Lifecycle.realizedPnlUsd := 12;
                      Lifecycle.currentCapitalUsd := 1012 |} in
  let marketsMap : gmap string Lifecycle.Market :=
    {[ "m2" := {| Lifecycle.currentProbability := 0.5 |} ]} in
  let result := Lifecycle.processPositionLifecycle portfolio marketsMap None
                  (fun _ => 86400000%float) in
  Lifecycle.openPositions (fst result) = [("m2", held)]
  /\ snd result = [ {| Lifecycle.position := delisted; Lifecycle.realizedPnl := 5 |} ].
Proof.
  intros delisted held portfolio marketsMap result.
  assert (Hunique : Lifecycle.uniqueKeys portfolio).
  { unfold Lifecycle.uniqueKeys. cbn. repeat constructor; cbn; intuition discriminate. }
  assert (Hin : In ("m1", delisted) (Lifecycle.openPositions portfolio))
    by (cbn; tauto).
  assert (Hgone : marketsMap !! "m1" = None) by reflexivity.
  destruct (delisted_position_force_closed marketsMap None (fun _ => 86400000%float)
              portfolio "m1" delisted Hunique Hin Hgone)
    as (_ & _ & _ & _ & Hscenario).
  apply Hscenario. intros e [<-|[<-|[]]] Hkey; [now cbn in Hkey|].
  vm_compute. reflexivity.
Defined.

(** C2: the realized P&L of a position closed because its market is absent
    is returned but not added to the running total: after the batch the
    portfolio's realized P&L is still 0 and its capital still 1000, while the
    record returned carries a realized P&L of 5. *)
Theorem delisted_pnl_not_accumulated :
  let delisted := {| Lifecycle.side := Lifecycle.YES; Lifecycle.entryProbability := 0.5;
                     Lifecycle.sizeUsd := 100; Lifecycle.openedAt := 0;
                     Lifecycle.unrealizedPnl := 5 |} in
  let portfolio := {| Lifecycle.openPositions := [("m1", delisted)];
                      Lifecycle.realizedPnlUsd := 0;
                      Lifecycle.currentCapitalUsd := 1000 |} in
  Lifecycle.processPositionLifecycle portfolio ∅ None (fun _ => 86400000%float)
  = ({| Lifecycle.openPositions := [];
        Lifecycle.realizedPnlUsd := 0;
        Lifecycle.currentCapitalUsd := 1000 |},
     [ {| Lifecycle.position := delisted; Lifecycle.realizedPnl := 5 |} ]).
Proof. reflexivity. Qed.

(** ** Win rate *)

Section StatsFacts.
Import Domain Stats.

Variable STARTING_CAPITAL_USD : float.

Lemma filter_length_insert {A} (f : A -> bool) (before after : list A) (x : A) :
  length (List.filter f (before ++ x :: after))
  = length (List.filter f (before ++ after)) + (if f x then 1 else 0).
Proof.
  rewrite !List.filter_app, !length_app. cbn [List.filter].
  destruct (f x); cbn [length]; lia.
Qed.







End StatsFacts.



(** ** Trade generation *)

Section GeneratorFacts.
Import Domain Generator.

Context {Market NewsArticle ScoredMarket NewsRelevance Oracle : Type}.
Variable scoreMarketForAgent :
  Market -> list NewsArticle -> AgentProfile -> Z -> ScoredMarket.
Variable sortByScore : list ScoredMarket -> list ScoredMarket.
Variable computeNewsRelevance : ScoredMarket -> list NewsArticle -> NewsRelevance.
Variable generateTradeForMarket :
  AgentProfile -> ScoredMarket -> NewsRelevance -> list NewsArticle -> nat -> Z ->
  Oracle -> Completion (option AgentTrade) * Oracle.

Local Abbreviation loop := (tradeLoop computeNewsRelevance generateTradeForMarket).

Lemma countGenerated_cons {A} (x : A) (generated : bool) (log : list (A * bool)) :
  countGenerated ((x, generated) :: log)
  = (if generated then 1 else 0) + countGenerated log.
Proof. unfold countGenerated. cbn. now destruct generated. Qed.

(** The loop, entered with the quota not yet reached: it processes a prefix
    of the markets it is given, in order; each market processed yields at
    most one trade; it never processes a market once the quota is reached;
    and it stops short of the end only with the quota reached. *)
Lemma tradeLoop_quota (agent : AgentProfile) (newsArticles : list NewsArticle)
    (nowMs : Z) (topMarkets : list ScoredMarket) :
  forall (i : nat) (run : Run ScoredMarket Oracle),
    topMarkets = [] \/ length (trades run) < maxTrades agent ->
    let run' := loop agent newsArticles nowMs topMarkets i run in
    exists log rest,
      processed run' = processed run ++ log
      /\ topMarkets = map fst log ++ rest
      /\ length (trades run') = length (trades run) + countGenerated log
      /\ (length (trades run) <= maxTrades agent ->
          length (trades run') <= maxTrades agent)
      /\ (rest = [] \/ length (trades run') = maxTrades agent)
      /\ (forall k, k < length log ->
            length (trades run) + countGenerated (firstn k log) < maxTrades agent).
Proof.
  induction topMarkets as [|scored rest IH]; intros i run Hroom; cbn zeta.
  - exists [], []. cbn. rewrite app_nil_r.
    repeat split; try tauto; try lia.
  - destruct Hroom as [Hnil|Hroom]; [discriminate|].
    cbn [tradeLoop].
    destruct (generateTradeForMarket agent scored
                (computeNewsRelevance scored newsArticles) newsArticles i nowMs
                (oracle run)) as [outcome oracle'].
    set (generated := match outcome with Return (Some _) => true | _ => false end).
    set (run1 := match outcome with
                 | Return (Some trade) => _
                 | Return None | Throw _ => _
                 end).
    assert (Hlog : processed run1 = processed run ++ [(scored, generated)]).
    { subst run1 generated. destruct outcome as [[trade|]|message]; reflexivity. }
    assert (Hlen : length (trades run1)
                   = length (trades run) + (if generated then 1 else 0)).
    { subst run1 generated. destruct outcome as [[trade|]|message]; cbn [trades];
        rewrite ?length_app; cbn [length]; lia. }
    clearbody run1 generated.
    destruct (Nat.leb_spec (maxTrades agent) (length (trades run1))) as [Hfull|Hmore].
    + exists [(scored, generated)], rest.
      rewrite countGenerated_cons. unfold countGenerated at 1. cbn [List.filter length].
      repeat split; try assumption; try reflexivity.
      * lia.
      * destruct generated; lia.
      * right. destruct generated; lia.
      * intros k Hk. cbn in Hk. assert (k = 0) as -> by lia.
        cbn. unfold countGenerated. cbn. lia.
    + destruct (IH (S i) run1 (or_intror Hmore))
        as (log & rest' & Hlog' & Htop & Hcount & Hbound & Hstop & Hearly).
      exists ((scored, generated) :: log), rest'.
      rewrite countGenerated_cons.
      repeat split.
      * rewrite Hlog', Hlog, <- app_assoc. reflexivity.
      * cbn [map fst]. now rewrite Htop.
      * lia.
      * intros _. apply Hbound. lia.
      * exact Hstop.
      * intros [|k] Hk.
        -- cbn. unfold countGenerated. cbn. lia.
        -- cbn [firstn]. rewrite countGenerated_cons.
           cbn [length] in Hk. specialize (Hearly k). lia.
Qed.

Lemma generateFromCandidates_quota (agent : AgentProfile) (candidates : list Market)
    (newsArticles : list NewsArticle) (now nowMs : Z) (oracle0 : Oracle) :
  length (trades (generateFromCandidates scoreMarketForAgent sortByScore
                    computeNewsRelevance generateTradeForMarket agent candidates
                    newsArticles now nowMs oracle0))
  <= maxTrades agent.
Proof.
  unfold generateFromCandidates.
  set (topMarkets := firstn (maxTrades agent * 2) _).
  assert (Hroom : topMarkets = [] \/ 0 < maxTrades agent).
  { subst topMarkets. destruct (maxTrades agent); [left; reflexivity|right; lia]. }
  destruct (tradeLoop_quota agent newsArticles nowMs topMarkets 0
              {| trades := []; processed := []; oracle := oracle0 |} Hroom)
    as (_ & _ & _ & _ & _ & Hbound & _).
  apply Hbound. cbn. lia.
Qed.


(** Quota 4 (GPT-5), nine ranked markets, an oracle that trades the odd
    ones, declines the even ones and fails on the market 6: the slice keeps
    eight markets, the fourth trade comes with the seventh of them, and the
    eighth is not processed. *)
Example tradeLoop_sample :
  let trade := {| status := "OPEN"; pnl := JsNumber.Undefined; investmentUsd := 100 |} in
  let run :=
    generateFromCandidates (Market := nat) (NewsArticle := unit) (NewsRelevance := unit)
      (fun market _ _ _ => market) (fun scored => scored) (fun _ _ => tt)
      (fun _ scored _ _ _ _ calls =>
         (if Nat.eqb scored 6 then Throw "timeout"
          else if Nat.odd scored then Return (Some trade) else Return None,
          S calls))
      GPT_5 [9; 8; 7; 6; 5; 4; 3; 2; 1] [] 0 0 0 in
  Generator.trades run = [trade; trade; trade; trade]
  /\ processed run
     = [(9, true); (8, false); (7, true); (6, false); (5, true); (4, false); (3, true)]
  /\ oracle run = 7.
Proof. repeat split. Qed.

(** With the cache in front: if no cached list exceeds its agent's quota,
    neither does the list returned, cached or fresh, and the cache is left
    in the same condition. *)
Section WithCache.

Variable marketId : Market -> string.
Variable sortIds : list string -> list string.
Variable filterCandidateMarkets : AgentProfile -> list Market -> list Market.

Lemma agentIdString_inj (a b : AgentId) : agentIdString a = agentIdString b -> a = b.
Proof. destruct a, b; cbn; intros H; try reflexivity; discriminate H. Qed.

Lemma withinQuota_delete (agentCache : gmap string (Cache.CacheEntry (list AgentTrade)))
    (key : string) :
  withinQuota agentCache -> withinQuota (delete key agentCache).
Proof.
  intros Hquota a entry Hentry.
  apply lookup_delete_Some in Hentry as [_ Hentry]. now apply Hquota.
Qed.

Lemma generateAgentTrades_within_quota (agentId : AgentId) (markets : list Market)
    (newsArticles : list NewsArticle) (tGet now nowMs tSet : Z)
    (agentCache : gmap string (Cache.CacheEntry (list AgentTrade)))
    (oracle0 : Oracle) :
  withinQuota agentCache ->
  let result :=
    generateAgentTrades marketId sortIds filterCandidateMarkets scoreMarketForAgent
      sortByScore computeNewsRelevance generateTradeForMarket agentId markets
      newsArticles tGet now nowMs tSet agentCache oracle0 in
  length (fst (fst result)) <= maxTrades (profileOf agentId)
  /\ withinQuota (snd (fst result)).
Proof.
  intros Hquota. unfold generateAgentTrades. cbn zeta.
  set (ids := sortIds (map marketId markets)).
  assert (Hmiss : forall agentCache',
            withinQuota agentCache' ->
            let result :=
              match filterCandidateMarkets (profileOf agentId) markets with
              | [] => ([], agentCache', oracle0)
              | (_ :: _) as candidates =>
                  let run :=
                    generateFromCandidates scoreMarketForAgent sortByScore
                      computeNewsRelevance generateTradeForMarket
                      (profileOf agentId) candidates newsArticles now nowMs oracle0 in
                  (trades run,
                   Cache.setCachedAgentTrades (agentIdString agentId) (trades run)
                     ids tSet agentCache',
                   oracle run)
              end in
            length (fst (fst result)) <= maxTrades (profileOf agentId)
            /\ withinQuota (snd (fst result))).
  { intros agentCache' Hquota'.
    destruct (filterCandidateMarkets (profileOf agentId) markets)
      as [|market candidates]; cbn zeta; cbn [fst snd].
    - split; [cbn; lia|exact Hquota'].
    - pose proof (generateFromCandidates_quota (profileOf agentId)
                    (market :: candidates) newsArticles now nowMs oracle0)
        as Hbound.
      split; [exact Hbound|].
      intros a entry Hentry. unfold Cache.setCachedAgentTrades in Hentry.
      apply lookup_insert_Some in Hentry as [[Hkey <-]|[_ Hentry]].
      + apply agentIdString_inj in Hkey as <-. exact Hbound.
      + now apply Hquota'. }
  destruct (agentCache !! agentIdString agentId) as [entry|] eqn:Hentry.
  - rewrite (getCachedAgentTrades_found _ _ _ _ _ Hentry).
    destruct (_ && _).
    + cbn [fst snd]. split; [now apply Hquota|exact Hquota].
    + apply Hmiss. now apply withinQuota_delete.
  - unfold Cache.getCachedAgentTrades. rewrite Hentry. now apply Hmiss.
Qed.

End WithCache.

End GeneratorFacts.

(** * Further properties *)

(** ** Order of binary64 numbers *)

Section FloatOrder.

Lemma SFcompare_antisym (a b : spec_float) :
  SFcompare b a = option_map CompOpp (SFcompare a b).
Proof.
  destruct a as [sa| sa | | sa ma ea], b as [sb| sb | | sb mb eb]; cbn;
    try reflexivity;
    try (destruct sa; reflexivity); try (destruct sb; reflexivity);
    try (destruct sa, sb; reflexivity).
  destruct sa, sb; cbn; try reflexivity; f_equal;
    rewrite (Z.compare_antisym ea eb); destruct (ea ?= eb)%Z; cbn;
    try reflexivity;
    rewrite (Pos.compare_cont_antisym ma mb Eq); cbn;
    now rewrite ?CompOpp_involutive.
Qed.

(** Finite numbers of one sign compare by exponent, then by mantissa. *)
Lemma exponent_mantissa_Lt (e1 : Z) (m1 : positive) (e2 : Z) (m2 : positive) :
  match (e1 ?= e2)%Z with
  | Lt => Lt
  | Gt => Gt
  | Eq => Pos.compare_cont Eq m1 m2
  end = Lt
  <-> (e1 < e2)%Z \/ (e1 = e2 /\ (m1 < m2)%positive).
Proof.
  destruct (Z.compare_spec e1 e2).
  - change (Pos.compare_cont Eq m1 m2) with (m1 ?= m2)%positive.
    rewrite Pos.compare_lt_iff. intuition lia.
  - intuition lia.
  - split; [discriminate|lia].
Qed.

Lemma exponent_mantissa_Gt (e1 : Z) (m1 : positive) (e2 : Z) (m2 : positive) :
  match (e1 ?= e2)%Z with
  | Lt => Gt
  | Gt => Lt
  | Eq => CompOpp (Pos.compare_cont Eq m1 m2)
  end = Lt
  <-> (e2 < e1)%Z \/ (e1 = e2 /\ (m2 < m1)%positive).
Proof.
  destruct (Z.compare_spec e1 e2).
  - change (Pos.compare_cont Eq m1 m2) with (m1 ?= m2)%positive.
    destruct (Pos.compare_spec m1 m2); cbn; split; try discriminate;
      try lia; reflexivity.
  - split; [discriminate|lia].
  - intuition lia.
Qed.

Lemma SFcompare_Lt_trans (a b c : spec_float) :
  SFcompare a b = Some Lt -> SFcompare b c = Some Lt -> SFcompare a c = Some Lt.
Proof.
  destruct a as [sa| sa | | sa ma ea], b as [sb| sb | | sb mb eb],
    c as [sc| sc | | sc mc ec]; cbn;
    try discriminate; try (intros _ _; reflexivity);
    repeat match goal with s : bool |- _ => destruct s end; cbn;
    try discriminate; try (intros _ _; reflexivity).
  - intros [= Hab] [= Hbc]. f_equal.
    apply exponent_mantissa_Gt in Hab, Hbc. apply exponent_mantissa_Gt. lia.
  - intros [= Hab] [= Hbc]. f_equal.
    apply exponent_mantissa_Lt in Hab, Hbc. apply exponent_mantissa_Lt. lia.
Qed.

Lemma float_ltb_trans (x y z : float) :
  PrimFloat.ltb x y = true -> PrimFloat.ltb y z = true -> PrimFloat.ltb x z = true.
Proof.
  rewrite !FloatAxioms.ltb_spec. unfold SFltb.
  destruct (SFcompare (Prim2SF x) (Prim2SF y)) as [[| |]|] eqn:Hxy; try discriminate.
  destruct (SFcompare (Prim2SF y) (Prim2SF z)) as [[| |]|] eqn:Hyz; try discriminate.
  now rewrite (SFcompare_Lt_trans _ _ _ Hxy Hyz).
Qed.

Lemma float_ltb_irrefl (x : float) : PrimFloat.ltb x x = false.
Proof.
  rewrite FloatAxioms.ltb_spec. unfold SFltb.
  pose proof (SFcompare_antisym (Prim2SF x) (Prim2SF x)) as Hself.
  destruct (SFcompare (Prim2SF x) (Prim2SF x)) as [[| |]|]; try reflexivity.
  discriminate Hself.
Qed.

Lemma float_ltb_leb (x y : float) :
  PrimFloat.ltb x y = true -> PrimFloat.leb x y = true.
Proof.
  rewrite FloatAxioms.ltb_spec, FloatAxioms.leb_spec. unfold SFltb, SFleb.
  now destruct (SFcompare _ _) as [[| |]|].
Qed.

(** Two numbers, neither of them NaN, are comparable. *)
Lemma float_leb_negb_ltb (x y : float) :
  PrimFloat.eqb x x = true -> PrimFloat.eqb y y = true ->
  PrimFloat.leb x y = negb (PrimFloat.ltb y x).
Proof.
  rewrite !FloatAxioms.eqb_spec, FloatAxioms.leb_spec, FloatAxioms.ltb_spec.
  unfold SFeqb, SFleb, SFltb.
  rewrite (SFcompare_antisym (Prim2SF x) (Prim2SF y)).
  destruct (Prim2SF x) as [sa| sa | | sa ma ea], (Prim2SF y) as [sb| sb | | sb mb eb];
    cbn; try discriminate; intros _ _;
    repeat match goal with s : bool |- _ => destruct s end; cbn; try reflexivity;
    match goal with |- context [match ?c with _ => _ end] => destruct c end;
    cbn; try reflexivity;
    match goal with
    | |- context [Pos.compare_cont ?a ?b ?c] => destruct (Pos.compare_cont a b c)
    end; reflexivity.
Qed.

(** A comparison with NaN is false. *)
Lemma float_leb_nan_r (x y : float) :
  PrimFloat.eqb y y = false -> PrimFloat.leb x y = false.
Proof.
  rewrite FloatAxioms.eqb_spec, FloatAxioms.leb_spec. unfold SFeqb, SFleb.
  intros Hnan.
  assert (Hy : Prim2SF y = S754_nan).
  { pose proof (SFcompare_antisym (Prim2SF y) (Prim2SF y)) as Hself.
    destruct (Prim2SF y) as [s| s | | s m e]; try reflexivity; cbn in Hnan;
      try discriminate; try (destruct s; discriminate).
    exfalso. cbn in Hself. destruct s; cbn in Hnan, Hself;
      rewrite Z.compare_refl in Hnan;
      change (Pos.compare_cont Eq m m) with (m ?= m)%positive in Hnan;
      rewrite Pos.compare_refl in Hnan; discriminate. }
  rewrite Hy. now destruct (Prim2SF x).
Qed.

End FloatOrder.

(** ** Validation and lookup of agent ids *)

Section ValidationFacts.
Import Domain.

Lemma ownProperty_existsb (o : list (string * AgentProfile)) (key : string) :
  match ownProperty o key with Some _ => true | None => false end
  = existsb (String.eqb key) (map fst o).
Proof.
  induction o as [|[k v] o IH]; cbn; [reflexivity|].
  rewrite (String.eqb_sym key k). now destruct (String.eqb k key).
Qed.

(** X1: [isValidAgentId] accepts exactly the six agent ids and the twelve
    property names inherited from [Object.prototype], and it agrees with the
    lookup: [getAgentProfile] returns on the ids that are accepted and throws,
    naming the id, on those that are refused. *)
Theorem isValidAgentId_agrees_with_getAgentProfile (agentId : string) :
  isValidAgentId agentId
  = existsb (String.eqb agentId) (ALL_AGENT_IDS ++ Object_prototype_keys)
  /\ match getAgentProfile agentId with
     | Return _ => isValidAgentId agentId = true
     | Throw message =>
         isValidAgentId agentId = false
         /\ message = String.append "Unknown agent ID: " agentId
     end.
Proof.
  unfold isValidAgentId, getAgentProfile, getProperty, ALL_AGENT_IDS.
  rewrite existsb_app, <- ownProperty_existsb.
  destruct (ownProperty AGENT_PROFILES agentId) as [profile|].
  - split; reflexivity.
  - cbn [orb].
    destruct (existsb (String.eqb agentId) Object_prototype_keys); split;
      try reflexivity.
    split; reflexivity.
Qed.

End ValidationFacts.

(** ** Counts and ranking of the summary *)

Section SummaryMoreFacts.
Import Domain Summary.

(** A status cannot be ['OPEN'] and ['CLOSED'] at once. *)
Lemma isClosed_isOpen (t : AgentTrade) : isClosed t = true -> isOpen t = false.
Proof.
  unfold isClosed, isOpen. intros Hclosed.
  apply String.eqb_eq in Hclosed. now rewrite Hclosed.
Qed.

Lemma isOpen_isClosed (t : AgentTrade) : isOpen t = true -> isClosed t = false.
Proof.
  unfold isClosed, isOpen. intros Hopen.
  apply String.eqb_eq in Hopen. now rewrite Hopen.
Qed.

Lemma open_closed_or_neither (trades : list AgentTrade) :
  length (List.filter isOpen trades) + length (List.filter isClosed trades)
  + length (List.filter isNeither trades)
  = length trades.
Proof.
  induction trades as [|t trades IH]; cbn [List.filter length]; [reflexivity|].
  unfold isNeither at 1.
  destruct (isOpen t) eqn:Hopen.
  - rewrite (isOpen_isClosed t Hopen). cbn. lia.
  - destruct (isClosed t); cbn; lia.
Qed.

Lemma fold_visitAgent_counts (tradesByAgent : list (string * list AgentTrade)) :
  forall vars,
    var_openTradesCount (fold_left visitAgent tradesByAgent vars)
    = var_openTradesCount vars
      + length (List.filter isOpen (concat (map snd tradesByAgent)))
    /\ var_closedTradesCount (fold_left visitAgent tradesByAgent vars)
       = var_closedTradesCount vars
         + length (List.filter isClosed (concat (map snd tradesByAgent))).
Proof.
  induction tradesByAgent as [|[agentId trades] rest IH]; intros vars;
    cbn [fold_left map concat snd].
  - cbn. lia.
  - destruct (IH (visitAgent vars (agentId, trades))) as [Hopen Hclosed].
    rewrite Hopen, Hclosed. unfold visitAgent.
    cbn [var_openTradesCount var_closedTradesCount].
    rewrite !List.filter_app, !length_app. lia.
Qed.

(** X2: a trade is counted at most once.  [openTradesCount] is the number of
    trades of all agents whose status is ['OPEN'], [closedTradesCount] the
    number of those whose status is ['CLOSED']; a trade with any other
    status is counted nowhere, so that the two counts fall short of the
    number of trades by the number of such trades, and add up to it exactly
    when every status is ['OPEN'] or ['CLOSED']. *)
Theorem computeSummaryStats_counts_each_trade_at_most_once
    (tradesByAgent : list (string * list AgentTrade)) :
  let all := concat (map snd tradesByAgent) in
  let stats := computeSummaryStats tradesByAgent in
  openTradesCount stats = length (List.filter isOpen all)
  /\ closedTradesCount stats = length (List.filter isClosed all)
  /\ openTradesCount stats + closedTradesCount stats
     + length (List.filter isNeither all)
     = length all
  /\ (openTradesCount stats + closedTradesCount stats = length all
      <-> Forall (fun t => status t = "OPEN" \/ status t = "CLOSED") all).
Proof.
  intros all stats.
  destruct (fold_visitAgent_counts tradesByAgent initial) as [Hopen Hclosed].
  assert (Hopen' : openTradesCount stats = length (List.filter isOpen all))
    by exact Hopen.
  assert (Hclosed' : closedTradesCount stats = length (List.filter isClosed all))
    by exact Hclosed.
  pose proof (open_closed_or_neither all) as Hall.
  split; [exact Hopen'|]. split; [exact Hclosed'|]. split; [lia|].
  rewrite Hopen', Hclosed'. clear - Hall. split.
  - intros Hsum.
    assert (Hnone : length (List.filter isNeither all) = 0) by lia.
    apply length_zero_iff_nil in Hnone.
    apply List.Forall_forall. intros t Hin.
    destruct (isOpen t) eqn:Ho; [left; now apply String.eqb_eq|].
    destruct (isClosed t) eqn:Hc; [right; now apply String.eqb_eq|].
    assert (Hmember : In t (List.filter isNeither all)).
    { apply List.filter_In. split; [exact Hin|].
      unfold isNeither. now rewrite Ho, Hc. }
    rewrite Hnone in Hmember. contradiction.
  - intros Hevery.
    assert (Hnone : List.filter isNeither all = []).
    { clear Hall. induction Hevery as [|t rest Ht _ IH]; cbn [List.filter];
        [reflexivity|].
      unfold isNeither at 1, isOpen, isClosed.
      destruct Ht as [-> | ->]; exact IH. }
    rewrite Hnone in Hall. cbn in Hall. lia.
Qed.

(** The realized P&L of an agent, as the loop computes it. *)
Local Abbreviation agentPnl := (fun trades => sumPnl (List.filter isClosed trades)).

Lemma fold_visitAgent_ranking (rest : list (string * list AgentTrade)) :
  forall seen vars,
    rankingInvariant seen vars ->
    rankingInvariant (seen ++ rest) (fold_left visitAgent rest vars).
Proof.
  induction rest as [|[agentId trades] rest IH]; intros seen vars Hinv;
    cbn [fold_left].
  - now rewrite app_nil_r.
  - replace (seen ++ (agentId, trades) :: rest)
      with ((seen ++ [(agentId, trades)]) ++ rest) by now rewrite <- app_assoc.
    apply IH. destruct Hinv as [Hmax Hbest].
    unfold rankingInvariant, visitAgent.
    cbn [var_bestPnl var_bestAgentByPnl].
    destruct (JsNumber.gtb (agentPnl trades) (var_bestPnl vars)) eqn:Hbetter.
    + split.
      * intros b tb Hin. apply in_app_or in Hin as [Hin|[[= <- <-]|[]]].
        -- specialize (Hmax b tb Hin). unfold JsNumber.gtb in *.
           destruct (PrimFloat.ltb (agentPnl trades) (agentPnl tb)) eqn:Habove;
             [|reflexivity].
           now rewrite (float_ltb_trans _ _ _ Hbetter Habove) in Hmax.
        -- apply float_ltb_irrefl.
      * exists trades. split; [|reflexivity]. apply in_or_app. right. now left.
    + split.
      * intros b tb Hin. apply in_app_or in Hin as [Hin|[[= <- <-]|[]]].
        -- now apply (Hmax b).
        -- exact Hbetter.
      * destruct (var_bestAgentByPnl vars) as [a|]; [|exact I].
        destruct Hbest as (ta & Hin & Hpnl). exists ta. split; [|exact Hpnl].
        apply in_or_app. now left.
Qed.

(** X3: when the summary names a best agent, that agent is one of the
    mapping and no agent of the mapping has a realized P&L above its own. *)
Theorem computeSummaryStats_best_is_maximal
    (tradesByAgent : list (string * list AgentTrade)) (best : string) :
  bestAgentByPnl (computeSummaryStats tradesByAgent) = Some best ->
  exists trades,
    In (best, trades) tradesByAgent
    /\ forall agentId other, In (agentId, other) tradesByAgent ->
         JsNumber.gtb (sumPnl (List.filter isClosed other))
           (sumPnl (List.filter isClosed trades)) = false.
Proof.
  unfold computeSummaryStats. cbn [bestAgentByPnl].
  assert (Hinit : rankingInvariant [] initial).
  { split; [intros b tb []|exact I]. }
  pose proof (fold_visitAgent_ranking tradesByAgent [] initial Hinit) as [Hmax Hbest].
  cbn [app] in Hmax, Hbest.
  destruct (JsNumber.gtb _ neg_infinity); [|discriminate].
  intros Hsome. rewrite Hsome in Hbest. destruct Hbest as (trades & Hin & Hpnl).
  exists trades. split; [exact Hin|].
  intros agentId other Hother. rewrite Hpnl. now apply (Hmax agentId).
Qed.

Lemma computeSummaryStats_best_is_maximal_witness :
  let gpt := [ {| status := "CLOSED"; pnl := JsNumber.Num 5; investmentUsd := 100 |} ] in
  let grok := [ {| status := "CLOSED"; pnl := JsNumber.Num (-3); investmentUsd := 100 |} ] in
  bestAgentByPnl (computeSummaryStats [("GROK_4", grok); ("GPT_5", gpt)]) = Some "GPT_5"
  /\ exists trades,
       In ("GPT_5", trades) [("GROK_4", grok); ("GPT_5", gpt)]
       /\ forall agentId other, In (agentId, other) [("GROK_4", grok); ("GPT_5", gpt)] ->
            JsNumber.gtb (sumPnl (List.filter isClosed other))
              (sumPnl (List.filter isClosed trades)) = false.
Proof.
  intros gpt grok. split; [reflexivity|].
  exact (computeSummaryStats_best_is_maximal
           [("GROK_4", grok); ("GPT_5", gpt)] "GPT_5" eq_refl).
Defined.

Lemma filter_isClosed_idem (trades : list AgentTrade) :
  List.filter isClosed (List.filter isClosed trades) = List.filter isClosed trades
  /\ List.filter isOpen (List.filter isClosed trades) = [].
Proof.
  induction trades as [|t trades [IHc IHo]]; cbn; [now split|].
  destruct (isClosed t) eqn:Hclosed; cbn [List.filter]; [|now split].
  rewrite Hclosed, (isClosed_isOpen t Hclosed). now rewrite IHc, IHo.
Qed.

Lemma fold_visitAgent_closed_only (tradesByAgent : list (string * list AgentTrade)) :
  forall vars vars',
    var_totalPnl vars' = var_totalPnl vars ->
    var_closedTradesCount vars' = var_closedTradesCount vars ->
    var_bestAgentByPnl vars' = var_bestAgentByPnl vars ->
    var_bestPnl vars' = var_bestPnl vars ->
    let kept := map (fun entry => (fst entry, List.filter isClosed (snd entry)))
                  tradesByAgent in
    var_totalPnl (fold_left visitAgent kept vars')
      = var_totalPnl (fold_left visitAgent tradesByAgent vars)
    /\ var_closedTradesCount (fold_left visitAgent kept vars')
       = var_closedTradesCount (fold_left visitAgent tradesByAgent vars)
    /\ var_bestAgentByPnl (fold_left visitAgent kept vars')
       = var_bestAgentByPnl (fold_left visitAgent tradesByAgent vars)
    /\ var_bestPnl (fold_left visitAgent kept vars')
       = var_bestPnl (fold_left visitAgent tradesByAgent vars)
    /\ var_openTradesCount (fold_left visitAgent kept vars')
       = var_openTradesCount vars'.
Proof.
  induction tradesByAgent as [|[agentId trades] rest IH];
    intros vars vars' Htotal Hclosed Hagent Hbest; cbn [map fold_left fst snd].
  - now repeat split.
  - destruct (filter_isClosed_idem trades) as [Hidem Hnone].
    destruct (IH (visitAgent vars (agentId, trades))
                (visitAgent vars' (agentId, List.filter isClosed trades)))
      as (H1 & H2 & H3 & H4 & H5);
      try (unfold visitAgent;
           cbn [var_totalPnl var_closedTradesCount var_bestAgentByPnl var_bestPnl];
           rewrite Hidem, ?Htotal, ?Hclosed, ?Hagent, ?Hbest; reflexivity).
    repeat split; try assumption.
    rewrite H5. unfold visitAgent. cbn [var_openTradesCount].
    rewrite Hnone. cbn. lia.
Qed.

(** X4: open trades weigh nothing in the summary but their count: with the
    open trades removed from every agent, the total P&L, the number of closed
    trades and the best agent are the same, and the open count is 0. *)
Theorem computeSummaryStats_ignores_open_trades
    (tradesByAgent : list (string * list AgentTrade)) :
  let closedOnly :=
    map (fun entry => (fst entry, List.filter isClosed (snd entry))) tradesByAgent in
  computeSummaryStats closedOnly
  = {| totalPnl := totalPnl (computeSummaryStats tradesByAgent);
       openTradesCount := 0;
       closedTradesCount := closedTradesCount (computeSummaryStats tradesByAgent);
       bestAgentByPnl := bestAgentByPnl (computeSummaryStats tradesByAgent) |}.
Proof.
  cbn zeta. unfold computeSummaryStats.
  cbn [totalPnl closedTradesCount bestAgentByPnl].
  destruct (fold_visitAgent_closed_only tradesByAgent initial initial
              eq_refl eq_refl eq_refl eq_refl) as (H1 & H2 & H3 & H4 & H5).
  cbn zeta in H1, H2, H3, H4, H5. rewrite H1, H2, H3, H4, H5. reflexivity.
Qed.

End SummaryMoreFacts.

(** ** The summary sentence *)

Section SummaryTextFacts.
Import Domain SummaryText.

Variable toFixed2 : float -> string.

Lemma filter_all {A} (f : A -> bool) (l : list A) :
  Forall (fun x => f x = true) l -> List.filter f l = l.
Proof. induction 1 as [|x l Hx _ IH]; cbn; [reflexivity|]. now rewrite Hx, IH. Qed.

Lemma filter_none {A} (f : A -> bool) (l : list A) :
  Forall (fun x => f x = false) l -> List.filter f l = [].
Proof. induction 1 as [|x l Hx _ IH]; cbn; [reflexivity|]. now rewrite Hx. Qed.

Lemma isOpen_not_closed (trades : list AgentTrade) :
  Forall (fun t => isOpen t = true) trades ->
  Forall (fun t => isClosed t = false) trades.
Proof.
  apply List.Forall_impl. intros t Hopen. unfold isOpen, isClosed in *.
  apply String.eqb_eq in Hopen. now rewrite Hopen.
Qed.

Lemma isClosed_not_open (trades : list AgentTrade) :
  Forall (fun t => isClosed t = true) trades ->
  Forall (fun t => isOpen t = false) trades.
Proof.
  apply List.Forall_impl. intros t Hclosed. unfold isOpen, isClosed in *.
  apply String.eqb_eq in Hclosed. now rewrite Hclosed.
Qed.

(** X5: the sentence for an agent without trades says so; with open trades
    only it gives their number, in the singular for one; with closed trades
    only it gives their number and mentions the realized P&L exactly when it
    is not zero, with a [+] sign when it is positive. *)
Theorem buildAgentSummary_sentences (agent : AgentProfile) :
  buildAgentSummary toFixed2 [] agent
  = String.append (displayName agent) " has no active trades."
  /\ (forall trades,
        trades <> [] -> Forall (fun t => isOpen t = true) trades ->
        buildAgentSummary toFixed2 trades agent
        = String.append (displayName agent)
            (String.append " has "
               (String.append
                  (String.append (numberString (length trades))
                     (String.append " open position" (plural (length trades))))
                  ".")))
  /\ (forall trades,
        trades <> [] -> Forall (fun t => isClosed t = true) trades ->
        buildAgentSummary toFixed2 trades agent
        = String.append (displayName agent)
            (String.append " has "
               (String.append
                  (let count :=
                     String.append (numberString (length trades))
                       (String.append " closed trade" (plural (length trades))) in
                   if PrimFloat.eqb (Summary.sumPnl trades) 0 then count
                   else String.append count
                          (String.append ", "
                             (String.append
                                (if JsNumber.gtb (Summary.sumPnl trades) 0
                                 then "+" else "")
                                (String.append "$"
                                   (String.append (toFixed2 (Summary.sumPnl trades))
                                      " realized PnL")))))
                  "."))).
Proof.
  split; [reflexivity|]. split.
  - intros trades Hsome Hopen. unfold buildAgentSummary.
    rewrite (filter_all _ _ Hopen), (filter_none _ _ (isOpen_not_closed _ Hopen)).
    destruct trades as [|t trades]; [contradiction|]. reflexivity.
  - intros trades Hsome Hclosed. unfold buildAgentSummary.
    rewrite (filter_all _ _ Hclosed), (filter_none _ _ (isClosed_not_open _ Hclosed)).
    destruct trades as [|t trades]; [contradiction|].
    cbn [length Nat.eqb Nat.ltb Nat.leb app].
    destruct (PrimFloat.eqb (Summary.sumPnl (t :: trades)) 0); reflexivity.
Qed.

End SummaryTextFacts.

Lemma buildAgentSummary_sentences_witness :
  let held := {| Domain.status := "OPEN"; Domain.pnl := JsNumber.Null;
                 Domain.investmentUsd := 100 |} in
  let won := {| Domain.status := "CLOSED"; Domain.pnl := JsNumber.Num 12.5;
                Domain.investmentUsd := 100 |} in
  SummaryText.buildAgentSummary (fun _ => "12.50") [held; held] Domain.GROK_4
  = "GROK 4 has 2 open positions."
  /\ SummaryText.buildAgentSummary (fun _ => "12.50") [won] Domain.GROK_4
     = "GROK 4 has 1 closed trade, +$12.50 realized PnL.".
Proof.
  intros held won.
  destruct (buildAgentSummary_sentences (fun _ => "12.50") Domain.GROK_4)
    as (_ & Hopen & Hclosed).
  split.
  - rewrite (Hopen [held; held]); [reflexivity|discriminate|].
    repeat constructor.
  - rewrite (Hclosed [won]); [reflexivity|discriminate|].
    repeat constructor.
Defined.

(** ** More on the agent trade cache *)

Section CacheMoreFacts.
Import Cache.
Context {Trades : Type}.

Lemma getCachedTradesQuick_found (agentId : string) (now : Z)
    (agentCache : gmap string (CacheEntry Trades)) (entry : CacheEntry Trades) :
  agentCache !! agentId = Some entry ->
  getCachedTradesQuick agentId now agentCache
  = if (now - generatedAt entry <? CACHE_TTL_MS)%Z
    then (Some (trades entry), agentCache)
    else (None, delete agentId agentCache).
Proof.
  intros Hentry. unfold getCachedTradesQuick. rewrite Hentry.
  rewrite Z.geb_leb, Z.ltb_antisym.
  now destruct (CACHE_TTL_MS <=? now - generatedAt entry)%Z.
Qed.

(** X6: the quick lookup checks the age only.  Whenever the strict lookup
    returns trades, the quick lookup at the same time returns the same
    trades; and after a [setCachedAgentTrades] the quick lookup returns the
    trades for 30 seconds whatever the market ids, then returns [null] and
    evicts the entry. *)
Theorem quick_lookup_checks_age_only (agentCache : gmap string (CacheEntry Trades))
    (agentId : string) :
  (forall ids now cached,
     fst (getCachedAgentTrades agentId ids now agentCache) = Some cached ->
     getCachedTradesQuick agentId now agentCache = (Some cached, agentCache))
  /\ (forall trades ids t0 t1,
        let stored := setCachedAgentTrades agentId trades ids t0 agentCache in
        getCachedTradesQuick agentId t1 stored
        = if (t1 - t0 <? 30 * 1000)%Z then (Some trades, stored)
          else (None, delete agentId stored)).
Proof.
  split.
  - intros ids now cached.
    destruct (agentCache !! agentId) as [entry|] eqn:Hentry.
    + rewrite (getCachedAgentTrades_found _ _ _ _ _ Hentry),
        (getCachedTradesQuick_found _ _ _ _ Hentry).
      destruct (now - generatedAt entry <? CACHE_TTL_MS)%Z; cbn [andb];
        [|discriminate].
      destruct (bool_decide _); cbn [fst]; [|discriminate].
      now intros [= ->].
    + unfold getCachedAgentTrades. rewrite Hentry. discriminate.
  - intros trades ids t0 t1 stored.
    apply (getCachedTradesQuick_found agentId t1 stored
             {| Cache.trades := trades; generatedAt := t0; marketIds := ids |}).
    apply lookup_insert_eq.
Qed.

Lemma getCachedAgentTrades_cases (agentId : string) (ids : list string) (now : Z)
    (agentCache : gmap string (CacheEntry Trades)) :
  (exists entry,
      agentCache !! agentId = Some entry
      /\ getCachedAgentTrades agentId ids now agentCache
         = (Some (trades entry), agentCache))
  \/ (getCachedAgentTrades agentId ids now agentCache = (None, agentCache)
      /\ agentCache !! agentId = None)
  \/ getCachedAgentTrades agentId ids now agentCache
     = (None, delete agentId agentCache).
Proof.
  destruct (agentCache !! agentId) as [entry|] eqn:Hentry.
  - rewrite (getCachedAgentTrades_found _ _ _ _ _ Hentry).
    destruct (_ && _); [left; now exists entry|right; now right].
  - right. left. unfold getCachedAgentTrades. now rewrite Hentry.
Qed.

Lemma agent_trade_cache_found_after_store
    (agentCache : gmap string (CacheEntry Trades)) (agentId : string)
    (trades : Trades) (ids : list string) (t0 t1 : Z) :
  (t1 - t0 < 30 * 1000)%Z ->
  let stored := setCachedAgentTrades agentId trades ids t0 agentCache in
  getCachedAgentTrades agentId ids t1 stored = (Some trades, stored).
Proof.
  intros Hfresh stored.
  rewrite (getCachedAgentTrades_found agentId ids t1 stored
             {| Cache.trades := trades; generatedAt := t0; marketIds := ids |})
    by apply lookup_insert_eq.
  cbn [generatedAt marketIds Cache.trades].
  rewrite bool_decide_eq_true_2 by reflexivity.
  replace (t1 - t0 <? CACHE_TTL_MS)%Z with true; [reflexivity|].
  symmetry. apply Z.ltb_lt. exact Hfresh.
Qed.

(** X7: the agents do not share entries.  A lookup, quick or strict, or a
    store for one agent leaves the entry of every other agent as it was, so
    that a lookup for another agent returns what it would have returned. *)
Theorem agent_cache_entries_are_independent
    (agentCache : gmap string (CacheEntry Trades)) (agentId other : string) :
  other <> agentId ->
  forall ids now trades,
    snd (getCachedAgentTrades agentId ids now agentCache) !! other
      = agentCache !! other
    /\ snd (getCachedTradesQuick agentId now agentCache) !! other
       = agentCache !! other
    /\ setCachedAgentTrades agentId trades ids now agentCache !! other
       = agentCache !! other
    /\ forall ids' now',
         fst (getCachedAgentTrades other ids' now'
                (snd (getCachedAgentTrades agentId ids now agentCache)))
           = fst (getCachedAgentTrades other ids' now' agentCache)
         /\ fst (getCachedAgentTrades other ids' now'
                   (setCachedAgentTrades agentId trades ids now agentCache))
            = fst (getCachedAgentTrades other ids' now' agentCache).
Proof.
  intros Hother ids now trades.
  assert (Hget : snd (getCachedAgentTrades agentId ids now agentCache) !! other
                 = agentCache !! other).
  { destruct (getCachedAgentTrades_cases agentId ids now agentCache)
      as [(entry & _ & ->)|[[-> _]| ->]]; cbn [snd]; try reflexivity.
    now apply lookup_delete_ne. }
  assert (Hquick : snd (getCachedTradesQuick agentId now agentCache) !! other
                   = agentCache !! other).
  { unfold getCachedTradesQuick.
    destruct (agentCache !! agentId) as [entry|]; [|reflexivity].
    destruct (_ >=? _)%Z; cbn [snd]; [|reflexivity].
    now apply lookup_delete_ne. }
  assert (Hset : setCachedAgentTrades agentId trades ids now agentCache !! other
                 = agentCache !! other)
    by now apply lookup_insert_ne.
  assert (Hsame : forall c : gmap string (CacheEntry Trades),
            c !! other = agentCache !! other ->
            forall ids' now',
              fst (getCachedAgentTrades other ids' now' c)
              = fst (getCachedAgentTrades other ids' now' agentCache)).
  { intros c Hc ids' now'. unfold getCachedAgentTrades. rewrite Hc.
    destruct (agentCache !! other) as [entry|]; [|reflexivity].
    destruct (_ >=? _)%Z; [reflexivity|].
    destruct (negb _); [reflexivity|].
    now destruct (marketIdsDiffer _ _). }
  repeat split; try assumption; now apply Hsame.
Qed.

(** X8: lookups never add an entry, and a miss is final: once a lookup for
    an agent has returned [null], every later lookup for that agent, strict
    or quick, at any time and with any market ids, returns [null] and changes
    nothing, until trades are stored again.  After [clearAgentCache] every
    lookup misses. *)
Theorem agent_cache_miss_is_final (agentCache : gmap string (CacheEntry Trades))
    (agentId : string) (ids : list string) (now : Z) :
  let after := snd (getCachedAgentTrades agentId ids now agentCache) in
  (forall key entry, after !! key = Some entry -> agentCache !! key = Some entry)
  /\ (fst (getCachedAgentTrades agentId ids now agentCache) = None ->
      forall ids' now',
        getCachedAgentTrades agentId ids' now' after = (None, after)
        /\ getCachedTradesQuick agentId now' after = (None, after))
  /\ (forall ids' now',
        getCachedAgentTrades agentId ids' now' (clearAgentCache agentCache)
        = (None, ∅)).
Proof.
  cbn zeta. split; [|split].
  - intros key entry.
    destruct (getCachedAgentTrades_cases agentId ids now agentCache)
      as [(e & _ & ->)|[[-> _]| ->]]; cbn [snd]; try tauto.
    intros Hkey. now apply lookup_delete_Some in Hkey.
  - intros Hmiss ids' now'.
    assert (Hgone : snd (getCachedAgentTrades agentId ids now agentCache) !! agentId
                    = None).
    { destruct (getCachedAgentTrades_cases agentId ids now agentCache)
        as [(e & _ & Hhit)|[[-> Hnone]| ->]]; cbn [snd].
      - rewrite Hhit in Hmiss. discriminate.
      - exact Hnone.
      - apply lookup_delete_eq. }
    unfold getCachedAgentTrades at 1, getCachedTradesQuick. now rewrite Hgone.
  - intros ids' now'. reflexivity.
Qed.

End CacheMoreFacts.

Lemma agent_cache_entries_are_independent_witness :
  let cache := Cache.setCachedAgentTrades "GPT_5" [1; 2] ["m1"] 1000 ∅ in
  fst (Cache.getCachedAgentTrades "GPT_5" ["m1"] 2000
         (Cache.setCachedAgentTrades "GROK_4" [3] ["m2"] 1500 cache))
  = Some [1; 2]
  /\ fst (Cache.getCachedAgentTrades "GPT_5" ["m1"] 2000
            (snd (Cache.getCachedAgentTrades "GROK_4" ["m1"] 1500 cache)))
     = Some [1; 2].
Proof.
  intros cache.
  assert (Hne : "GPT_5" <> "GROK_4") by discriminate.
  destruct (agent_cache_entries_are_independent (Trades := list nat) cache
              "GROK_4" "GPT_5" Hne ["m1"] 1500 [3])
    as (_ & _ & _ & Hlater).
  destruct (agent_cache_entries_are_independent (Trades := list nat) cache
              "GROK_4" "GPT_5" Hne ["m2"] 1500 [3])
    as (_ & _ & _ & Hstored).
  split.
  - rewrite (proj2 (Hstored ["m1"] 2000%Z)). reflexivity.
  - rewrite (proj1 (Hlater ["m1"] 2000%Z)). reflexivity.
Defined.

Lemma agent_cache_miss_is_final_witness :
  let cache := Cache.setCachedAgentTrades "GPT_5" [1; 2] ["m1"] 1000 ∅ in
  let after := snd (Cache.getCachedAgentTrades "GPT_5" ["m1"; "m2"] 2000 cache) in
  Cache.getCachedAgentTrades "GPT_5" ["m1"] 2001 after = (None, after)
  /\ Cache.getCachedTradesQuick "GPT_5" 2001 after = (None, after).
Proof.
  intros cache after.
  destruct (agent_cache_miss_is_final (Trades := list nat) cache "GPT_5"
              ["m1"; "m2"] 2000) as (_ & Hfinal & _).
  apply Hfinal. reflexivity.
Defined.

Lemma quick_lookup_checks_age_only_witness :
  let cache := Cache.setCachedAgentTrades "GPT_5" [1; 2] ["m1"] 1000 ∅ in
  fst (Cache.getCachedAgentTrades "GPT_5" ["m1"] 2000 cache) = Some [1; 2]
  /\ Cache.getCachedTradesQuick "GPT_5" 2000 cache = (Some [1; 2], cache).
Proof.
  intros cache.
  assert (Hstrict : fst (Cache.getCachedAgentTrades "GPT_5" ["m1"] 2000 cache)
                    = Some [1; 2]) by reflexivity.
  split; [exact Hstrict|].
  exact (proj1 (quick_lookup_checks_age_only (Trades := list nat) cache "GPT_5")
           ["m1"] 2000%Z [1; 2] Hstrict).
Defined.

(** ** The AI response cache *)

Section AICacheFacts.
Import AICache.
Context {Decision : Type}.

Lemma append_empty (s : string) : String.append "" s = s.
Proof. reflexivity. Qed.

Lemma append_String (c : Ascii.ascii) (s t : string) :
  String.append (String c s) t = String c (String.append s t).
Proof. reflexivity. Qed.

Lemma occurs_colon_key (agentId agentId' marketId marketId' : string) :
  occurs ":"%char agentId = false -> occurs ":"%char agentId' = false ->
  cacheKey agentId marketId = cacheKey agentId' marketId' ->
  agentId = agentId' /\ marketId = marketId'.
Proof.
  unfold cacheKey. revert agentId'.
  induction agentId as [|c agentId IH]; intros [|c' agentId'];
    rewrite ?append_String, ?append_empty, ?append_String, ?append_empty;
    cbn [occurs].
  - intros _ _ [= ->]. now split.
  - intros _ Hfree [= <- _]. rewrite Ascii.eqb_refl in Hfree. discriminate Hfree.
  - intros Hfree _ [= -> _]. rewrite Ascii.eqb_refl in Hfree. discriminate Hfree.
  - intros Hfree Hfree' [= -> Hrest].
    apply orb_false_elim in Hfree as [_ Hfree].
    apply orb_false_elim in Hfree' as [_ Hfree'].
    destruct (IH agentId' Hfree Hfree' Hrest) as [-> ->]. now split.
Qed.

(** X9: a decision stored for an agent and a market is returned for the
    next 30 seconds and the entry kept; from 30 seconds on the lookup
    returns [null] and evicts the entry, after which lookups miss whatever the
    time. *)
Theorem ai_decision_cache_contract (aiCache : gmap string (CacheEntry Decision))
    (agentId marketId : string) (decision : Decision) (t0 : Z) :
  let stored := setCachedAIDecision agentId marketId decision t0 aiCache in
  let evicted := delete (cacheKey agentId marketId) stored in
  (forall t1, (t1 - t0 < 30 * 1000)%Z ->
     getCachedAIDecision agentId marketId t1 stored = (Some decision, stored))
  /\ (forall t1, (30 * 1000 <= t1 - t0)%Z ->
        getCachedAIDecision agentId marketId t1 stored = (None, evicted))
  /\ (forall t2, getCachedAIDecision agentId marketId t2 evicted = (None, evicted)).
Proof.
  intros stored evicted.
  assert (Hentry : stored !! cacheKey agentId marketId
                   = Some {| AICache.decision := decision; cachedAt := t0 |})
    by apply lookup_insert_eq.
  split; [|split].
  - intros t1 Hfresh. unfold getCachedAIDecision. cbn zeta. rewrite Hentry.
    cbn [cachedAt AICache.decision].
    replace (t1 - t0 >=? AI_CACHE_TTL)%Z with false; [reflexivity|].
    symmetry. rewrite Z.geb_leb. apply Z.leb_gt. exact Hfresh.
  - intros t1 Hstale. unfold getCachedAIDecision. cbn zeta. rewrite Hentry.
    cbn [cachedAt AICache.decision].
    replace (t1 - t0 >=? AI_CACHE_TTL)%Z with true; [reflexivity|].
    symmetry. rewrite Z.geb_leb. apply Z.leb_le. exact Hstale.
  - intros t2. unfold getCachedAIDecision. cbn zeta.
    subst evicted. now rewrite lookup_delete_eq.
Qed.

(** X10: for agent ids without a colon, as are the six ids of the registry,
    the key separates the pairs: two different (agent, market) pairs have
    different keys, and storing a decision for one pair does not change what a
    lookup for another pair returns. *)
Theorem ai_decision_cache_pairs_are_independent
    (aiCache : gmap string (CacheEntry Decision))
    (agentId marketId agentId' marketId' : string) :
  Forall (fun a => occurs ":"%char a = false) Domain.ALL_AGENT_IDS
  /\ (occurs ":"%char agentId = false -> occurs ":"%char agentId' = false ->
      (agentId, marketId) <> (agentId', marketId') ->
      cacheKey agentId marketId <> cacheKey agentId' marketId'
      /\ forall decision t0 t1,
           fst (getCachedAIDecision agentId' marketId' t1
                  (setCachedAIDecision agentId marketId decision t0 aiCache))
           = fst (getCachedAIDecision agentId' marketId' t1 aiCache)).
Proof.
  split; [repeat constructor|].
  intros Hfree Hfree' Hpair.
  assert (Hkey : cacheKey agentId marketId <> cacheKey agentId' marketId').
  { intros Heq. apply Hpair.
    destruct (occurs_colon_key _ _ _ _ Hfree Hfree' Heq) as [-> ->]. reflexivity. }
  split; [exact Hkey|].
  intros decision t0 t1. unfold getCachedAIDecision, setCachedAIDecision. cbn zeta.
  rewrite lookup_insert_ne by exact Hkey.
  destruct (aiCache !! cacheKey agentId' marketId') as [entry|]; [|reflexivity].
  now destruct (_ >=? _)%Z.
Qed.

End AICacheFacts.

Lemma ai_decision_cache_contract_witness :
  let stored := AICache.setCachedAIDecision "GPT_5" "m1" 42 1000 ∅ in
  AICache.getCachedAIDecision "GPT_5" "m1" 30999 stored = (Some 42, stored)
  /\ AICache.getCachedAIDecision "GPT_5" "m1" 31000 stored
     = (None, delete (AICache.cacheKey "GPT_5" "m1") stored).
Proof.
  intros stored.
  destruct (ai_decision_cache_contract (Decision := nat) ∅ "GPT_5" "m1" 42 1000)
    as (Hfresh & Hstale & _).
  split; [apply Hfresh; lia|apply Hstale; lia].
Defined.

Lemma ai_decision_cache_pairs_are_independent_witness :
  let cache := AICache.setCachedAIDecision "GPT_5" "m1" 42 1000 ∅ in
  AICache.cacheKey "GROK_4" "m1" <> AICache.cacheKey "GPT_5" "m1"
  /\ fst (AICache.getCachedAIDecision "GPT_5" "m1" 2000
            (AICache.setCachedAIDecision "GROK_4" "m1" 7 1500 cache))
     = Some 42.
Proof.
  intros cache.
  destruct (ai_decision_cache_pairs_are_independent (Decision := nat) cache
              "GROK_4" "m1" "GPT_5" "m1") as [_ Hpairs].
  destruct (Hpairs eq_refl eq_refl) as [Hkey Hsame]; [discriminate|].
  split; [exact Hkey|].
  rewrite (Hsame 7 1500%Z 2000%Z). reflexivity.
Defined.

(** ** NaN *)

Section NaNFacts.

Lemma Prim2SF_nan (x : float) : PrimFloat.eqb x x = false -> Prim2SF x = S754_nan.
Proof.
  rewrite FloatAxioms.eqb_spec. unfold SFeqb.
  destruct (Prim2SF x) as [s| s | | s m e]; cbn; try reflexivity;
    try discriminate; try (destruct s; discriminate).
  destruct s; rewrite Z.compare_refl;
    change (Pos.compare_cont Eq m m) with (m ?= m)%positive;
    rewrite Pos.compare_refl; discriminate.
Qed.

Lemma nan_Prim2SF (x : float) : Prim2SF x = S754_nan -> PrimFloat.eqb x x = false.
Proof. intros Hx. now rewrite FloatAxioms.eqb_spec, Hx. Qed.

Lemma float_sub_nan_r (x y : float) :
  PrimFloat.eqb y y = false -> PrimFloat.eqb (x - y) (x - y) = false.
Proof.
  intros Hy. apply nan_Prim2SF. rewrite FloatAxioms.sub_spec, (Prim2SF_nan y Hy).
  now destruct (Prim2SF x).
Qed.

Lemma float_div_nan_l (x y : float) :
  PrimFloat.eqb x x = false -> PrimFloat.eqb (x / y) (x / y) = false.
Proof.
  intros Hx. apply nan_Prim2SF. rewrite FloatAxioms.div_spec, (Prim2SF_nan x Hx).
  reflexivity.
Qed.

End NaNFacts.

(** ** More on the exit rules *)

Section LifecycleMoreFacts.
Import Lifecycle.

(** X14: a position whose opening date cannot be parsed ([getTime()] is
    NaN) is never closed by age: the 30-day test is false at every time, and
    the decision to close does not depend on the time at all. *)
Theorem unparsable_date_never_ages (position : Position) (market : Market)
    (score : option float) :
  PrimFloat.eqb (openedAt position) (openedAt position) = false ->
  forall now,
    JsNumber.geb (daysOpen position now) 30 = false
    /\ forall now',
         shouldClosePosition position market score now
         = shouldClosePosition position market score now'.
Proof.
  intros Hnan.
  assert (Hage : forall now, JsNumber.geb (daysOpen position now) 30 = false).
  { intros now. unfold JsNumber.geb, daysOpen. apply float_leb_nan_r.
    apply float_div_nan_l. now apply float_sub_nan_r. }
  intros now. split; [apply Hage|].
  intros now'. unfold shouldClosePosition.
  change MAX_HOLDING_DAYS with 30%float. now rewrite !Hage.
Qed.

Lemma unparsable_date_never_ages_witness :
  let position := {| side := YES; entryProbability := 0.5; sizeUsd := 100;
                     openedAt := nan; unrealizedPnl := 0 |} in
  shouldClosePosition position {| currentProbability := 0.5 |} None
    1900000000000
  = false.
Proof.
  intros position.
  destruct (unparsable_date_never_ages position {| currentProbability := 0.5 |}
              None eq_refl 1900000000000) as [_ Hsame].
  rewrite (Hsame 0%float). reflexivity.
Defined.

(** X15: a confidence of NaN passes the confidence test of the flip rule:
    the rule answers as it does for a confidence of 1. *)
Theorem nan_confidence_passes_flip_test (position : Position) (market : Market)
    (agent : Domain.AgentProfile) :
  shouldFlipPosition position market agent nan
  = shouldFlipPosition position market agent 1.
Proof. now rewrite !shouldFlipPosition_conditions. Qed.

End LifecycleMoreFacts.

(** ** More on the batch over open positions *)

Section BatchMoreFacts.
Import Lifecycle.

Variable marketsMap : gmap string Market.
Variable scoresMap : option (gmap string float).
Variable now : string -> float.

Local Abbreviation visit := (visitPosition marketsMap scoresMap now).
Local Abbreviation closes := (closesEntry marketsMap scoresMap now).
Local Abbreviation byRule := (closedByRule marketsMap scoresMap now).
Local Abbreviation record := (closedRecord marketsMap).

Lemma filter_lengths {A} (f : A -> bool) (l : list A) :
  length (List.filter (fun x => negb (f x)) l) + length (List.filter f l) = length l.
Proof.
  induction l as [|x l IH]; cbn; [reflexivity|]. destruct (f x); cbn; lia.
Qed.

Lemma filter_keys_unique {A} (f : string * A -> bool) (o : list (string * A)) :
  List.NoDup (map fst o) -> List.NoDup (map fst (List.filter f o)).
Proof.
  induction o as [|e o IH]; cbn; [constructor|].
  intros Hnodup. apply List.NoDup_cons_iff in Hnodup as [Hfresh Hnodup].
  destruct (f e); cbn; [|now apply IH].
  constructor; [|now apply IH]. intros Hin. apply Hfresh.
  apply in_map_iff in Hin as (e' & He' & Hin').
  apply filter_In in Hin' as [Hin' _]. apply in_map_iff. now exists e'.
Qed.

(** X11: the batch sorts the positions into two groups and loses none:
    those whose market is absent or for which an exit rule fires are returned,
    in the order of enumeration, each with its realized P&L; the others stay
    open, in order and unchanged; the keys stay distinct. *)
Theorem processPositionLifecycle_partitions (portfolio : Portfolio) :
  uniqueKeys portfolio ->
  let result := processPositionLifecycle portfolio marketsMap scoresMap now in
  openPositions (fst result)
    = List.filter (fun e => negb (closes e)) (openPositions portfolio)
  /\ snd result = map record (List.filter closes (openPositions portfolio))
  /\ map position (snd result)
     = map snd (List.filter closes (openPositions portfolio))
  /\ length (openPositions (fst result)) + length (snd result)
     = length (openPositions portfolio)
  /\ uniqueKeys (fst result).
Proof.
  intros Hunique result.
  destruct (processPositionLifecycle_effect marketsMap scoresMap now portfolio Hunique)
    as (Hopen & Hclosed & _ & _).
  fold result in Hopen, Hclosed.
  split; [exact Hopen|]. split; [exact Hclosed|]. split; [|split].
  - rewrite Hclosed, map_map. apply map_ext. intros [k p].
    unfold closedRecord. cbn [fst snd]. now destruct (marketsMap !! k).
  - rewrite Hopen, Hclosed, length_map. apply filter_lengths.
  - unfold uniqueKeys. rewrite Hopen. now apply filter_keys_unique.
Qed.

Lemma fold_visitPosition_none (es : list (string * Position)) :
  Forall (fun e => closes e = false) es ->
  forall state, fold_left visit es state = state.
Proof.
  induction 1 as [|e es He _ IH]; intros [portfolio closed]; cbn [fold_left];
    [reflexivity|].
  now rewrite visitPosition_cases, He, IH.
Qed.

(** X12: a second pass with the same snapshot, scores and clock closes
    nothing and changes nothing: the positions that the first pass left open
    meet no exit condition. *)
Theorem processPositionLifecycle_second_pass (portfolio : Portfolio) :
  uniqueKeys portfolio ->
  let first := processPositionLifecycle portfolio marketsMap scoresMap now in
  processPositionLifecycle (fst first) marketsMap scoresMap now = (fst first, []).
Proof.
  intros Hunique first.
  destruct (processPositionLifecycle_effect marketsMap scoresMap now portfolio Hunique)
    as (Hopen & _).
  fold first in Hopen. unfold processPositionLifecycle at 1.
  apply fold_visitPosition_none. rewrite Hopen.
  apply List.Forall_forall. intros e He. apply filter_In in He as [_ He].
  now destruct (closes e).
Qed.

(** X13: when the market of every open position is in the snapshot, the
    two running totals advance by the realized P&L of the positions returned,
    added one after the other in the order of the returned list. *)
Theorem processPositionLifecycle_totals (portfolio : Portfolio) :
  uniqueKeys portfolio ->
  Forall (fun e => marketsMap !! fst e <> None) (openPositions portfolio) ->
  let result := processPositionLifecycle portfolio marketsMap scoresMap now in
  realizedPnlUsd (fst result)
    = fold_left (fun total closed => (total + realizedPnl closed)%float)
        (snd result) (realizedPnlUsd portfolio)
  /\ currentCapitalUsd (fst result)
     = fold_left (fun total closed => (total + realizedPnl closed)%float)
         (snd result) (currentCapitalUsd portfolio).
Proof.
  intros Hunique Hlisted result.
  destruct (processPositionLifecycle_effect marketsMap scoresMap now portfolio Hunique)
    as (_ & Hclosed & Hpnl & Hcapital).
  fold result in Hclosed, Hpnl, Hcapital.
  assert (Hrule : List.filter byRule (openPositions portfolio)
                  = List.filter closes (openPositions portfolio)).
  { apply filter_ext_in. intros e He.
    rewrite List.Forall_forall in Hlisted. specialize (Hlisted e He).
    unfold closedByRule. now destruct (marketsMap !! fst e). }
  assert (Hfold : forall (l : list (string * Position)) (x : float),
            fold_left (fun total e => (total + realizedPnl (record e))%float) l x
            = fold_left (fun total closed => (total + realizedPnl closed)%float)
                (map record l) x).
  { induction l as [|e l IH]; intros x; cbn; [reflexivity|apply IH]. }
  rewrite Hpnl, Hcapital, Hclosed, Hrule, !Hfold. now split.
Qed.

End BatchMoreFacts.

Lemma processPositionLifecycle_partitions_witness :
  let delisted := {| Lifecycle.side := Lifecycle.YES; Lifecycle.entryProbability := 0.5;
                     Lifecycle.sizeUsd := 100; Lifecycle.openedAt := 0;
                     Lifecycle.unrealizedPnl := 5 |} in
  let won := {| Lifecycle.side := Lifecycle.YES; Lifecycle.entryProbability := 0.5;
                Lifecycle.sizeUsd := 100; Lifecycle.openedAt := 0;
                Lifecycle.unrealizedPnl := 0 |} in
  let held := {| Lifecycle.side := Lifecycle.NO; Lifecycle.entryProbability := 0.4;
                 Lifecycle.sizeUsd := 50; Lifecycle.openedAt := 0;
                 Lifecycle.unrealizedPnl := -1 |} in
  let portfolio :=
    {| Lifecycle.openPositions := [("m1", delisted); ("m2", held); ("m3", won)];
       Lifecycle.realizedPnlUsd := 0; Lifecycle.currentCapitalUsd := 1000 |} in
  let marketsMap : gmap string Lifecycle.Market :=
    {[ "m2" := {| Lifecycle.currentProbability := 0.5 |};
       "m3" := {| Lifecycle.currentProbability := 0.75 |} ]} in
  let result := Lifecycle.processPositionLifecycle portfolio marketsMap None
                  (fun _ => 86400000%float) in
  Lifecycle.uniqueKeys portfolio
  /\ length (Lifecycle.openPositions (fst result)) + length (snd result) = 3.
Proof.
  intros delisted won held portfolio marketsMap result.
  assert (Hunique : Lifecycle.uniqueKeys portfolio).
  { unfold Lifecycle.uniqueKeys. cbn. repeat constructor; cbn; intuition discriminate. }
  split; [exact Hunique|].
  exact (proj1 (proj2 (proj2 (proj2
           (processPositionLifecycle_partitions marketsMap None
              (fun _ => 86400000%float) portfolio Hunique))))).
Defined.

Lemma processPositionLifecycle_second_pass_witness :
  let held := {| Lifecycle.side := Lifecycle.NO; Lifecycle.entryProbability := 0.4;
                 Lifecycle.sizeUsd := 50; Lifecycle.openedAt := 0;
                 Lifecycle.unrealizedPnl := -1 |} in
  let lost := {| Lifecycle.side := Lifecycle.YES; Lifecycle.entryProbability := 0.5;
                 Lifecycle.sizeUsd := 100; Lifecycle.openedAt := 0;
                 Lifecycle.unrealizedPnl := 0 |} in
  let portfolio :=
    {| Lifecycle.openPositions := [("m2", held); ("m3", lost)];
       Lifecycle.realizedPnlUsd := 0; Lifecycle.currentCapitalUsd := 1000 |} in
  let marketsMap : gmap string Lifecycle.Market :=
    {[ "m2" := {| Lifecycle.currentProbability := 0.5 |};
       "m3" := {| Lifecycle.currentProbability := 0.25 |} ]} in
  let first := Lifecycle.processPositionLifecycle portfolio marketsMap None
                 (fun _ => 86400000%float) in
  Lifecycle.uniqueKeys portfolio
  /\ Lifecycle.processPositionLifecycle (fst first) marketsMap None
       (fun _ => 86400000%float)
     = (fst first, []).
Proof.
  intros held lost portfolio marketsMap first.
  assert (Hunique : Lifecycle.uniqueKeys portfolio).
  { unfold Lifecycle.uniqueKeys. cbn. repeat constructor; cbn; intuition discriminate. }
  split; [exact Hunique|].
  exact (processPositionLifecycle_second_pass marketsMap None
           (fun _ => 86400000%float) portfolio Hunique).
Defined.

Lemma processPositionLifecycle_totals_witness :
  let held := {| Lifecycle.side := Lifecycle.NO; Lifecycle.entryProbability := 0.4;
                 Lifecycle.sizeUsd := 50; Lifecycle.openedAt := 0;
                 Lifecycle.unrealizedPnl := -1 |} in
  let lost := {| Lifecycle.side := Lifecycle.YES; Lifecycle.entryProbability := 0.5;
                 Lifecycle.sizeUsd := 100; Lifecycle.openedAt := 0;
                 Lifecycle.unrealizedPnl := 0 |} in
  let portfolio :=
    {| Lifecycle.openPositions := [("m2", held); ("m3", lost)];
       Lifecycle.realizedPnlUsd := 10; Lifecycle.currentCapitalUsd := 1010 |} in
  let marketsMap : gmap string Lifecycle.Market :=
    {[ "m2" := {| Lifecycle.currentProbability := 0.5 |};
       "m3" := {| Lifecycle.currentProbability := 0.25 |} ]} in
  let result := Lifecycle.processPositionLifecycle portfolio marketsMap None
                  (fun _ => 86400000%float) in
  Lifecycle.realizedPnlUsd (fst result) = (-15)%float
  /\ Lifecycle.currentCapitalUsd (fst result) = 985%float.
Proof.
  intros held lost portfolio marketsMap result.
  assert (Hunique : Lifecycle.uniqueKeys portfolio).
  { unfold Lifecycle.uniqueKeys. cbn. repeat constructor; cbn; intuition discriminate. }
  assert (Hlisted : Forall (fun e => marketsMap !! fst e <> None)
                      (Lifecycle.openPositions portfolio)).
  { repeat constructor; cbn; discriminate. }
  destruct (processPositionLifecycle_totals marketsMap None
              (fun _ => 86400000%float) portfolio Hunique Hlisted)
    as [Hpnl Hcapital].
  split.
  - etransitivity; [exact Hpnl|reflexivity].
  - etransitivity; [exact Hcapital|reflexivity].
Defined.

(** ** More on trade generation *)

Section GeneratorMoreFacts.
Import Domain Generator.

Context {Market NewsArticle ScoredMarket NewsRelevance Oracle : Type}.
Variable scoreMarketForAgent :
  Market -> list NewsArticle -> AgentProfile -> Z -> ScoredMarket.
Variable sortByScore : list ScoredMarket -> list ScoredMarket.
Variable computeNewsRelevance : ScoredMarket -> list NewsArticle -> NewsRelevance.
Variable generateTradeForMarket :
  AgentProfile -> ScoredMarket -> NewsRelevance -> list NewsArticle -> nat -> Z ->
  Oracle -> Completion (option AgentTrade) * Oracle.


(** The oracle with its exceptions turned into [null]. *)
Local Abbreviation quiet :=
  (fun agent scored newsRelevance newsArticles i nowMs oracle0 =>
     match generateTradeForMarket agent scored newsRelevance newsArticles i nowMs
             oracle0 with
     | (Throw _, oracle') => (Return None, oracle')
     | answer => answer
     end).

Lemma tradeLoop_quiet (agent : AgentProfile) (newsArticles : list NewsArticle)
    (nowMs : Z) (topMarkets : list ScoredMarket) :
  forall i run,
    tradeLoop computeNewsRelevance quiet agent newsArticles nowMs topMarkets i run
    = tradeLoop computeNewsRelevance generateTradeForMarket agent newsArticles nowMs
        topMarkets i run.
Proof.
  induction topMarkets as [|scored rest IH]; intros i run; cbn [tradeLoop];
    [reflexivity|].
  destruct (generateTradeForMarket agent scored
              (computeNewsRelevance scored newsArticles) newsArticles i nowMs
              (oracle run)) as [[[trade|]|message] oracle'];
    destruct (_ <=? _)%nat; try reflexivity; apply IH.
Qed.

(** X17: a failure of the oracle on a market is skipped like an answer of
    [null]: the generation gives the same trades, processes the same markets
    and leaves the oracle in the same state as with an oracle that answers
    [null] wherever this one throws. *)
Theorem generate_skips_oracle_failures (agent : AgentProfile)
    (candidates : list Market) (newsArticles : list NewsArticle) (now nowMs : Z)
    (oracle0 : Oracle) :
  generateFromCandidates scoreMarketForAgent sortByScore computeNewsRelevance
    generateTradeForMarket agent candidates newsArticles now nowMs oracle0
  = generateFromCandidates scoreMarketForAgent sortByScore computeNewsRelevance
      (fun agent scored newsRelevance newsArticles i nowMs oracle0 =>
         match generateTradeForMarket agent scored newsRelevance newsArticles i
                 nowMs oracle0 with
         | (Throw _, oracle') => (Return None, oracle')
         | answer => answer
         end)
      agent candidates newsArticles now nowMs oracle0.
Proof. unfold generateFromCandidates. symmetry. apply tradeLoop_quiet. Qed.

Section WithCacheInFront.

Variable marketId : Market -> string.
Variable sortIds : list string -> list string.
Variable filterCandidateMarkets : AgentProfile -> list Market -> list Market.

Local Abbreviation generate :=
  (generateAgentTrades marketId sortIds filterCandidateMarkets scoreMarketForAgent
     sortByScore computeNewsRelevance generateTradeForMarket).

(** X18: after a generation that found candidates, a second call for the
    same agent with markets of the same sorted ids, less than 30 seconds
    after the list was cached, returns that list again, whatever the news, and
    consults neither the scorer nor the oracle: cache and oracle are as they
    were. *)
Theorem generateAgentTrades_second_call_is_served_from_cache
    (agentId : AgentId) (markets markets' : list Market)
    (newsArticles newsArticles' : list NewsArticle)
    (tGet now nowMs tSet tGet' now' nowMs' tSet' : Z)
    (agentCache : gmap string (Cache.CacheEntry (list AgentTrade)))
    (oracle0 oracle1 : Oracle) :
  fst (Cache.getCachedAgentTrades (agentIdString agentId)
         (sortIds (map marketId markets)) tGet agentCache) = None ->
  filterCandidateMarkets (profileOf agentId) markets <> [] ->
  sortIds (map marketId markets') = sortIds (map marketId markets) ->
  (tGet' - tSet < 30 * 1000)%Z ->
  let first := generate agentId markets newsArticles tGet now nowMs tSet agentCache
                 oracle0 in
  generate agentId markets' newsArticles' tGet' now' nowMs' tSet' (snd (fst first))
    oracle1
  = (fst (fst first), snd (fst first), oracle1).
Proof.
  intros Hmiss Hsome Hids Hfresh. unfold generateAgentTrades. cbn zeta.
  destruct (Cache.getCachedAgentTrades (agentIdString agentId)
              (sortIds (map marketId markets)) tGet agentCache)
    as [[cached|] agentCache1]; [discriminate Hmiss|].
  destruct (filterCandidateMarkets (profileOf agentId) markets)
    as [|market candidates]; [contradiction|].
  cbn [fst snd]. rewrite Hids.
  pose proof (agent_trade_cache_found_after_store agentCache1 (agentIdString agentId)
              (trades (generateFromCandidates scoreMarketForAgent sortByScore
                         computeNewsRelevance generateTradeForMarket
                         (profileOf agentId) (market :: candidates) newsArticles
                         now nowMs oracle0))
              (sortIds (map marketId markets)) tSet tGet' Hfresh) as Hhit.
  cbn zeta in Hhit. now rewrite Hhit.
Qed.

(** X19: when no market qualifies for the agent, a generation that missed
    the cache returns the empty list, does not consult the oracle and stores
    nothing: no entry is left for the agent, so the next call computes again. *)
Theorem generateAgentTrades_without_candidates_caches_nothing
    (agentId : AgentId) (markets : list Market) (newsArticles : list NewsArticle)
    (tGet now nowMs tSet : Z)
    (agentCache : gmap string (Cache.CacheEntry (list AgentTrade)))
    (oracle0 : Oracle) :
  fst (Cache.getCachedAgentTrades (agentIdString agentId)
         (sortIds (map marketId markets)) tGet agentCache) = None ->
  filterCandidateMarkets (profileOf agentId) markets = [] ->
  let result := generate agentId markets newsArticles tGet now nowMs tSet agentCache
                  oracle0 in
  fst (fst result) = []
  /\ snd result = oracle0
  /\ snd (fst result) !! agentIdString agentId = None.
Proof.
  intros Hmiss Hnone. unfold generateAgentTrades. cbn zeta. rewrite Hnone.
  destruct (getCachedAgentTrades_cases (agentIdString agentId)
              (sortIds (map marketId markets)) tGet agentCache)
    as [(entry & _ & Hhit)|[[Hkept Habsent]|Hevicted]].
  - rewrite Hhit in Hmiss. discriminate Hmiss.
  - rewrite Hkept. cbn [fst snd]. now repeat split.
  - rewrite Hevicted. cbn [fst snd]. repeat split. apply lookup_delete_eq.
Qed.

(** X20: starting from the empty cache, whatever calls are made one after
    the other, for whatever agents, markets, news and clock readings, every
    list returned, computed or served from the cache, has at most [maxTrades]
    trades of its agent. *)
Theorem every_generation_respects_the_quota
    (requests : list (Session.Request Market NewsArticle)) (oracle0 : Oracle) :
  Forall (fun answer => length (snd answer) <= maxTrades (profileOf (fst answer)))
    (Session.serve marketId sortIds filterCandidateMarkets scoreMarketForAgent
       sortByScore computeNewsRelevance generateTradeForMarket requests ∅ oracle0).
Proof.
  assert (Hany : forall agentCache, withinQuota agentCache ->
            forall oracle1,
              Forall (fun answer =>
                        length (snd answer) <= maxTrades (profileOf (fst answer)))
                (Session.serve marketId sortIds filterCandidateMarkets
                   scoreMarketForAgent sortByScore computeNewsRelevance
                   generateTradeForMarket requests agentCache oracle1)).
  { induction requests as [|request later IH]; intros agentCache Hquota oracle1;
      cbn [Session.serve]; [constructor|].
    pose proof (generateAgentTrades_within_quota scoreMarketForAgent sortByScore
                  computeNewsRelevance generateTradeForMarket marketId sortIds
                  filterCandidateMarkets (Session.agentId request)
                  (Session.markets request) (Session.newsArticles request)
                  (Session.tGet request) (Session.now request)
                  (Session.nowMs request) (Session.tSet request) agentCache oracle1
                  Hquota) as Hcall.
    cbn zeta in Hcall.
    destruct (generateAgentTrades _ _ _ _ _ _ _ _ _ _ _ _ _ _ _ _)
      as [[answer agentCache'] oracle'].
    cbn [fst snd] in Hcall. destruct Hcall as [Hbound Hquota'].
    constructor; [exact Hbound|]. now apply IH. }
  apply Hany. intros a entry Hentry. rewrite lookup_empty in Hentry.
  discriminate Hentry.
Qed.

End WithCacheInFront.

End GeneratorMoreFacts.

Lemma generateAgentTrades_second_call_is_served_from_cache_witness :
  let trade := {| Domain.status := "OPEN"; Domain.pnl := JsNumber.Undefined;
                  Domain.investmentUsd := 100 |} in
  let generate :=
    Generator.generateAgentTrades (Market := nat) (NewsArticle := unit)
      (NewsRelevance := unit) (Oracle := nat)
      (fun market => if Nat.eqb market 1 then "m1" else "m2") (fun ids => ids)
      (fun _ markets => markets) (fun market _ _ _ => market) (fun scored => scored)
      (fun _ _ => tt) (fun _ _ _ _ _ _ calls => (Return (Some trade), S calls)) in
  let first := generate Domain.ID_GPT_5 [1; 2] [] 1000%Z 1000%Z 1000%Z 1500%Z ∅ 0 in
  fst (fst first) = [trade; trade]
  /\ snd first = 2
  /\ generate Domain.ID_GPT_5 [1; 2] [tt] 31499%Z 31499%Z 31499%Z 31499%Z
       (snd (fst first)) 2
     = ([trade; trade], snd (fst first), 2).
Proof.
  intros trade generate first. split; [reflexivity|]. split; [reflexivity|].
  refine (generateAgentTrades_second_call_is_served_from_cache
           (fun market _ _ _ => market) (fun scored => scored) (fun _ _ => tt)
           (fun _ _ _ _ _ _ calls => (Return (Some trade), S calls))
           (fun market => if Nat.eqb market 1 then "m1" else "m2") (fun ids => ids)
           (fun _ markets => markets)
           Domain.ID_GPT_5 [1; 2] [1; 2] [] [tt] 1000 1000 1000 1500
           31499 31499 31499 31499 ∅ 0 2 _ _ _ _).
  - reflexivity.
  - discriminate.
  - reflexivity.
  - lia.
Defined.

Lemma generateAgentTrades_without_candidates_caches_nothing_witness :
  let trade := {| Domain.status := "OPEN"; Domain.pnl := JsNumber.Undefined;
                  Domain.investmentUsd := 100 |} in
  let result :=
    Generator.generateAgentTrades (Market := nat) (NewsArticle := unit)
      (NewsRelevance := unit) (Oracle := nat)
      (fun market => if Nat.eqb market 1 then "m1" else "m2") (fun ids => ids)
      (fun _ _ => []) (fun market _ _ _ => market) (fun scored => scored)
      (fun _ _ => tt) (fun _ _ _ _ _ _ calls => (Return (Some trade), S calls))
      Domain.ID_GPT_5 [1; 2] [] 1000%Z 1000%Z 1000%Z 1500%Z ∅ 0 in
  fst (fst result) = []
  /\ snd result = 0
  /\ snd (fst result) !! "GPT_5" = None.
Proof.
  intros trade result.
  refine (generateAgentTrades_without_candidates_caches_nothing
           (fun market _ _ _ => market) (fun scored => scored) (fun _ _ => tt)
           (fun _ _ _ _ _ _ calls => (Return (Some trade), S calls))
           (fun market => if Nat.eqb market 1 then "m1" else "m2") (fun ids => ids)
           (fun _ _ => [])
           Domain.ID_GPT_5 [1; 2] [] 1000 1000 1000 1500 ∅ 0 _ _).
  - reflexivity.
  - reflexivity.
Defined.

(** ** More on the statistics of an agent *)

Section StatsMoreFacts.
Import Domain Stats.

Variable STARTING_CAPITAL_USD : float.

Lemma optOrZero_not_nan (v : JsNumber.OptNumber) :
  PrimFloat.eqb (JsNumber.optOrZero v) (JsNumber.optOrZero v) = true.
Proof.
  destruct v as [| |x]; cbn; try reflexivity.
  unfold JsNumber.orZero, JsNumber.truthy.
  destruct (PrimFloat.eqb x 0); cbn; [reflexivity|].
  destruct (PrimFloat.eqb x x) eqn:Hx; [exact Hx|reflexivity].
Qed.

Lemma isLoss_negb_isWin (t : AgentTrade) : isLoss t = negb (isWin t).
Proof.
  unfold isLoss, isWin, JsNumber.gtb.
  apply float_leb_negb_ltb; [apply optOrZero_not_nan|reflexivity].
Qed.

(** X21: every closed trade whose P&L is not [null] is either a win or a
    loss, never both and never neither: wins and losses add up to the number
    of those trades, and [calls] is the number of all trades. *)
Theorem wins_and_losses_cover_closed_trades (agentId : AgentId)
    (trades : list AgentTrade) :
  let stats := calculateAgentStats STARTING_CAPITAL_USD agentId trades in
  wins stats + losses stats
  = length (List.filter (fun t => isClosed t && JsNumber.notNull (Domain.pnl t))
              trades)
  /\ calls stats = length trades
  /\ wins stats + losses stats <= calls stats.
Proof.
  cbn zeta. unfold calculateAgentStats. cbn [wins losses calls].
  set (closedTrades := List.filter _ trades).
  assert (Hsum : length (List.filter isWin closedTrades)
                 + length (List.filter isLoss closedTrades)
                 = length closedTrades).
  { rewrite (filter_ext isLoss (fun t => negb (isWin t)) isLoss_negb_isWin).
    rewrite Nat.add_comm. apply filter_lengths. }
  repeat split; try exact Hsum.
  rewrite Hsum. subst closedTrades. apply filter_length_le.
Qed.

Lemma Math_max_0_not_negative (x : float) : PrimFloat.ltb (Math_max 0 x) 0 = false.
Proof.
  unfold Math_max. change (negb (PrimFloat.eqb 0 0)) with false. cbn [orb].
  destruct (negb (PrimFloat.eqb x x)); [reflexivity|].
  destruct (PrimFloat.ltb 0 x) eqn:Hpos.
  - destruct (PrimFloat.ltb x 0) eqn:Hneg; [|reflexivity].
    pose proof (float_ltb_trans _ _ _ Hpos Hneg) as Hself.
    now rewrite float_ltb_irrefl in Hself.
  - destruct (PrimFloat.ltb x 0); reflexivity.
Qed.

(** X22: the cash and the total capital reported are never negative,
    whatever the trades and the starting capital. *)
Theorem reported_cash_and_total_are_not_negative (agentId : AgentId)
    (trades : list AgentTrade) :
  let stats := calculateAgentStats STARTING_CAPITAL_USD agentId trades in
  PrimFloat.ltb (cash stats) 0 = false /\ PrimFloat.ltb (total stats) 0 = false.
Proof.
  cbn zeta. unfold calculateAgentStats. cbn [cash total].
  split; apply Math_max_0_not_negative.
Qed.

(** X23: a closed trade whose P&L is [null] is left out of the wins, the
    losses, the win rate and the P&L, and only adds to [calls]; a closed trade
    whose P&L is [undefined] or NaN counts as a loss. *)
Theorem null_pnl_is_skipped_and_missing_pnl_is_a_loss (agentId : AgentId)
    (before after : list AgentTrade) (t : AgentTrade) :
  status t = "CLOSED" ->
  let without := calculateAgentStats STARTING_CAPITAL_USD agentId (before ++ after) in
  let with_t :=
    calculateAgentStats STARTING_CAPITAL_USD agentId (before ++ t :: after) in
  (Domain.pnl t = JsNumber.Null ->
     wins with_t = wins without /\ losses with_t = losses without
     /\ winRate with_t = winRate without /\ Stats.pnl with_t = Stats.pnl without
     /\ calls with_t = S (calls without))
  /\ (Domain.pnl t = JsNumber.Undefined \/ Domain.pnl t = JsNumber.Num nan ->
      wins with_t = wins without /\ losses with_t = S (losses without)).
Proof.
  intros Hstatus without with_t. split.
  - intros Hnull.
    assert (Hclosed :
              List.filter (fun t0 => isClosed t0 && JsNumber.notNull (Domain.pnl t0))
                (before ++ t :: after)
              = List.filter (fun t0 => isClosed t0 && JsNumber.notNull (Domain.pnl t0))
                  (before ++ after)).
    { rewrite !List.filter_app. cbn [List.filter]. rewrite Hnull.
      now rewrite andb_false_r. }
    subst with_t without. unfold calculateAgentStats.
    cbn [wins losses winRate Stats.pnl calls]. rewrite Hclosed.
    repeat split. rewrite !length_app. cbn [length]. lia.
  - intros Hmissing.
    assert (Hkept : isClosed t && JsNumber.notNull (Domain.pnl t) = true).
    { unfold isClosed. rewrite Hstatus. now destruct Hmissing as [-> | ->]. }
    assert (Hvalue : JsNumber.optOrZero (Domain.pnl t) = 0%float)
      by now destruct Hmissing as [-> | ->].
    assert (Hwin : isWin t = false) by (unfold isWin; now rewrite Hvalue).
    assert (Hloss : isLoss t = true) by (unfold isLoss; now rewrite Hvalue).
    assert (Hclosed :
              List.filter (fun t0 => isClosed t0 && JsNumber.notNull (Domain.pnl t0))
                (before ++ t :: after)
              = List.filter (fun t0 => isClosed t0 && JsNumber.notNull (Domain.pnl t0))
                  before
                ++ t :: List.filter
                          (fun t0 => isClosed t0 && JsNumber.notNull (Domain.pnl t0))
                          after).
    { rewrite List.filter_app. cbn [List.filter]. now rewrite Hkept. }
    subst with_t without. unfold calculateAgentStats. cbn [wins losses].
    rewrite Hclosed, !filter_length_insert, Hwin, Hloss, <- List.filter_app.
    split; lia.
Qed.

End StatsMoreFacts.

Lemma null_pnl_is_skipped_and_missing_pnl_is_a_loss_witness :
  let won := {| Domain.status := "CLOSED"; Domain.pnl := JsNumber.Num 10;
                Domain.investmentUsd := 100 |} in
  let unpriced := {| Domain.status := "CLOSED"; Domain.pnl := JsNumber.Null;
                     Domain.investmentUsd := 100 |} in
  let missing := {| Domain.status := "CLOSED"; Domain.pnl := JsNumber.Undefined;
                    Domain.investmentUsd := 100 |} in
  Stats.winRate (Stats.calculateAgentStats 1000 Domain.ID_GROK_4 [won; unpriced])
  = Stats.winRate (Stats.calculateAgentStats 1000 Domain.ID_GROK_4 [won])
  /\ Stats.losses (Stats.calculateAgentStats 1000 Domain.ID_GROK_4 [won; missing])
     = 1.
Proof.
  intros won unpriced missing.
  destruct (null_pnl_is_skipped_and_missing_pnl_is_a_loss 1000 Domain.ID_GROK_4
              [won] [] unpriced eq_refl) as [Hnull _].
  destruct (null_pnl_is_skipped_and_missing_pnl_is_a_loss 1000 Domain.ID_GROK_4
              [won] [] missing eq_refl) as [_ Hmissing].
  split.
  - exact (proj1 (proj2 (proj2 (Hnull eq_refl)))).
  - etransitivity; [exact (proj2 (Hmissing (or_introl eq_refl)))|reflexivity].
Defined.

(** ** Engine configuration *)

Section EngineConfigFacts.
Import EngineConfig.

(** X24: whatever the environment, the engine mode is LIVE or SIMULATION,
    never DEBUG; it is LIVE exactly when [PREDICTION_ENGINE_MODE] is the
    string ["LIVE"]; debugging is on exactly when [PREDICTION_ENGINE_DEBUG] is
    the string ["true"]; and lifecycle management, adaptive tuning and web
    search are enabled, the environment having no say in them. *)
Theorem engine_configuration (env : string -> option string) :
  mode (getEngineConfig env) <> DEBUG
  /\ (mode (getEngineConfig env) = LIVE <-> env "PREDICTION_ENGINE_MODE" = Some "LIVE")
  /\ (isDebugMode env = true <-> env "PREDICTION_ENGINE_DEBUG" = Some "true")
  /\ isLifecycleEnabled env = true
  /\ isAdaptiveEnabled env = true
  /\ isWebSearchEnabled env = true.
Proof.
  unfold isDebugMode, isLifecycleEnabled, isAdaptiveEnabled, isWebSearchEnabled,
    getEngineConfig, DEFAULT_CONFIG, envIs.
  cbn [mode debug enableLifecycle enableAdaptive enableWebSearch].
  repeat split; try reflexivity.
  - destruct (env "PREDICTION_ENGINE_MODE") as [value|]; [|discriminate].
    destruct (String.eqb value "LIVE"); discriminate.
  - destruct (env "PREDICTION_ENGINE_MODE") as [value|]; [|discriminate].
    destruct (String.eqb_spec value "LIVE") as [->|]; [reflexivity|discriminate].
  - intros ->. reflexivity.
  - destruct (env "PREDICTION_ENGINE_DEBUG") as [value|]; [|discriminate].
    destruct (String.eqb_spec value "true") as [->|]; [reflexivity|discriminate].
  - intros ->. reflexivity.
Qed.

End EngineConfigFacts.

Lemma engine_configuration_witness :
  let env := fun name : string =>
    if String.eqb name "PREDICTION_ENGINE_MODE" then Some "live" else None in
  EngineConfig.mode (EngineConfig.getEngineConfig env) = EngineConfig.SIMULATION
  /\ EngineConfig.isLifecycleEnabled env = true.
Proof.
  intros env.
  destruct (engine_configuration env) as (Hdebug & Hlive & _ & Hlifecycle & _).
  split; [|exact Hlifecycle].
  assert (Hnot : EngineConfig.mode (EngineConfig.getEngineConfig env)
                 <> EngineConfig.LIVE).
  { intros Hmode. apply Hlive in Hmode. discriminate Hmode. }
  destruct (EngineConfig.mode (EngineConfig.getEngineConfig env));
    [now elim Hnot|reflexivity|now elim Hdebug].
Defined.

(** ** Category detection *)

Section CategoryFacts.
Import Category.

Variable toLowerCase : string -> string.

Local Abbreviation detect := (detectCategoryFromMarket toLowerCase).

(** X25: the detection answers one of nine categories, and every answer
    other than ["World"] has a Polymarket slug: [mapCategoryToPolymarket]
    returns [null] on a detected category exactly when it is ["World"]. *)
Theorem detected_category_has_a_slug (market : MarketFields) :
  In (detect market)
    [ "Elections"; "Politics"; "Sports"; "Crypto"; "Earnings"; "Finance"; "Tech";
      "World"; "Geopolitics" ]
  /\ ((detect market = "World" /\ mapCategoryToPolymarket (detect market) = NoSlug)
      \/ (detect market <> "World"
          /\ exists slug, mapCategoryToPolymarket (detect market) = Slug slug)).
Proof.
  unfold detectCategoryFromMarket. cbn zeta.
  repeat match goal with
         | |- context [if ?c then _ else _] => destruct c
         end;
    (split;
     [cbn; tauto
     |first [left; split; reflexivity
            |right; split; [discriminate|eexists; reflexivity]]]).
Qed.

Lemma falsePositiveKeywords_are_entertainmentKeywords (k : string) :
  In k falsePositiveKeywords -> In k entertainmentKeywords.
Proof.
  cbn. intros Hk.
  repeat (destruct Hk as [<-|Hk]; [tauto|]). destruct Hk.
Qed.

Lemma isFalsePositive_isEntertainment (category : string) (tags : list string)
    (question description : string) :
  isFalsePositive question description = true ->
  isEntertainment category tags question description = true.
Proof.
  unfold isFalsePositive, isEntertainment. intros Hfalse.
  apply existsb_exists in Hfalse as (k & Hk & Hfound).
  apply falsePositiveKeywords_are_entertainmentKeywords in Hk.
  apply orb_prop in Hfound as [Hquestion|Hdescription].
  - assert (Hq : existsb (fun k => includes question k) entertainmentKeywords = true)
      by (apply existsb_exists; now exists k).
    rewrite Hq. now rewrite !orb_true_r.
  - assert (Hd : existsb (fun k => includes description k) entertainmentKeywords = true)
      by (apply existsb_exists; now exists k).
    rewrite Hd. now rewrite !orb_true_r.
Qed.

(** X26: the false-positive test of the Geopolitics rule never decides
    anything: each of its keywords is an entertainment keyword, so a market
    that reaches the Geopolitics rule has already passed the entertainment
    rule, and the detection gives the same answer without the test.  A market
    answered ["Geopolitics"] triggers no entertainment rule. *)
Theorem geopolitics_false_positive_test_is_redundant (market : MarketFields) :
  detect market = detectWithoutFalsePositiveTest toLowerCase market
  /\ (detect market = "Geopolitics" ->
      isEntertainment (categoryText toLowerCase market) (tagTexts toLowerCase market)
        (questionText toLowerCase market) (descriptionText toLowerCase market)
      = false).
Proof.
  unfold detectCategoryFromMarket, detectWithoutFalsePositiveTest. cbn zeta.
  set (category := categoryText toLowerCase market).
  set (tags := tagTexts toLowerCase market).
  set (question := questionText toLowerCase market).
  set (description := descriptionText toLowerCase market).
  destruct (isElections category tags question description);
    [split; [reflexivity|discriminate]|].
  destruct (isPolitics category tags question);
    [split; [reflexivity|discriminate]|].
  destruct (isSports category tags question);
    [split; [reflexivity|discriminate]|].
  destruct (isCrypto category tags question);
    [split; [reflexivity|discriminate]|].
  destruct (isEarnings category tags question description);
    [split; [reflexivity|discriminate]|].
  destruct (isFinance category tags question);
    [split; [reflexivity|discriminate]|].
  destruct (isTech category tags question);
    [split; [reflexivity|discriminate]|].
  destruct (isEntertainment category tags question description) eqn:Hshow;
    [split; [reflexivity|discriminate]|].
  split; [|reflexivity].
  destruct (isFalsePositive question description) eqn:Hfalse.
  - rewrite (isFalsePositive_isEntertainment category tags _ _ Hfalse) in Hshow.
    discriminate Hshow.
  - now rewrite andb_true_r.
Qed.

Lemma includes_empty (k : string) : k <> "" -> includes "" k = false.
Proof. destruct k; [contradiction|reflexivity]. Qed.

(** X27: a market with no category, topic, subcategory, tags, question,
    title, name, description or summary is answered ["World"]; and so is a
    market whose fields are all empty strings. *)
Theorem market_without_text_is_World (market : MarketFields) :
  toLowerCase "" = "" ->
  orElse (category market) (orElse (topic market) (orElse (subcategory market) "")) = "" ->
  orElse (question market) (orElse (title market) (orElse (name market) "")) = "" ->
  orElse (description market) (orElse (summary market) "") = "" ->
  tagTexts toLowerCase market = [] ->
  detect market = "World".
Proof.
  intros Hlower Hcategory Hquestion Hdescription Htags.
  unfold detectCategoryFromMarket, categoryText, questionText, descriptionText.
  cbn zeta. rewrite Hcategory, Hquestion, Hdescription, Htags, Hlower.
  reflexivity.
Qed.

(** X28: a market whose question or description mentions the box office
    (or another of the five keywords of [earningsFalsePositives]) is never
    answered ["Earnings"]. *)
Theorem box_office_is_not_earnings (market : MarketFields) :
  isEarningsFalsePositive (questionText toLowerCase market)
    (descriptionText toLowerCase market) = true ->
  detect market <> "Earnings".
Proof.
  intros Hfalse. unfold detectCategoryFromMarket. cbn zeta.
  unfold isEarnings at 1. rewrite Hfalse. cbn [negb andb].
  repeat match goal with
         | |- context [if ?c then _ else _] => destruct c
         end; discriminate.
Qed.

End CategoryFacts.

Lemma geopolitics_false_positive_test_is_redundant_witness :
  let market := {| Category.category := None; Category.topic := None;
                   Category.subcategory := None;
                   Category.tags := Some [Some "nato"; None];
                   Category.question := Some "will russia and ukraine sign a treaty?";
                   Category.title := None; Category.name := None;
                   Category.description := None; Category.summary := None |} in
  Category.detectCategoryFromMarket (fun s => s) market = "Geopolitics"
  /\ Category.isEntertainment (Category.categoryText (fun s => s) market)
       (Category.tagTexts (fun s => s) market)
       (Category.questionText (fun s => s) market)
       (Category.descriptionText (fun s => s) market)
     = false.
Proof.
  intros market.
  assert (Hdetected : Category.detectCategoryFromMarket (fun s => s) market
                      = "Geopolitics") by reflexivity.
  split; [exact Hdetected|].
  exact (proj2 (geopolitics_false_positive_test_is_redundant (fun s => s) market)
           Hdetected).
Defined.

Lemma market_without_text_is_World_witness :
  let market := {| Category.category := Some ""; Category.topic := None;
                   Category.subcategory := None; Category.tags := Some [None; Some ""];
                   Category.question := None; Category.title := Some "";
                   Category.name := None; Category.description := None;
                   Category.summary := None |} in
  Category.detectCategoryFromMarket (fun s => s) market = "World".
Proof.
  intros market.
  apply (market_without_text_is_World (fun s => s) market); reflexivity.
Defined.

Lemma box_office_is_not_earnings_witness :
  let market := {| Category.category := None; Category.topic := None;
                   Category.subcategory := None; Category.tags := None;
                   Category.question :=
                     Some "will the film top the box office with record revenue?";
                   Category.title := None; Category.name := None;
                   Category.description := None; Category.summary := None |} in
  Category.detectCategoryFromMarket (fun s => s) market <> "Earnings"
  /\ Category.detectCategoryFromMarket (fun s => s) market = "World".
Proof.
  intros market. split; [|reflexivity].
  apply (box_office_is_not_earnings (fun s => s) market). reflexivity.
Defined.
